(** * pfs.datamodel: filename grammars and the PfsFiberProfiles persistence layer

    A shallow embedding of [python/pfs/datamodel/drp.py] and
    [python/pfs/datamodel/pfsFiberProfiles.py].

    Conventions of the embedding.
    - Python [str] is [string]; a character is one of the 256 code points of
      [ascii] (Latin-1).  [int] is [Z]; [float] is the kernel's binary64
      [float], which is what a Python float and a [numpy.float64] are.
    - A raised exception is an [Error e] result; the exception classes are the
      constructors of [exn].
    - numpy arrays are lists.  A two-dimensional array is a list of rows of one
      common length; the shape tests numpy performs are written out where the
      code relies on them.  An integer array has a dtype, int64 or int32, in
      which its arithmetic wraps around; a float32 is held as the float64 of
      the same value.  The arithmetic of numpy scalars is that of NumPy 2,
      where a Python integer takes the dtype of the numpy integer it meets.
    - A FITS binary table is a record of its columns, as astropy (version 6)
      holds it once the table is made: the cells of a [J] column are int32
      values, those of an [E] or [PE()] column float32 values, and the casts
      are written out where [_writeImpl] makes the columns. *)

From Stdlib Require Import ZArith NArith List String Ascii Bool Lia.
From Stdlib Require Import DecimalString HexadecimalString DecimalPos DecimalN.
From Stdlib Require Import PrimFloat SpecFloat FloatOps.
Import ListNotations.

Open Scope string_scope.
Open Scope list_scope.
Open Scope Z_scope.

(** ** Exceptions and results *)

Inductive exn : Type :=
| AssertionError
| AttributeError (msg : string)
| RuntimeError (msg : string)
| KeyError (key : string)
| IndexError
| TypeError
| ValueError
| OverflowError
| MaskError
| FileNotFoundError (path : string)
| re_error
| ParseError.

Inductive result (A : Type) : Type :=
| Ok (a : A)
| Error (e : exn).

Arguments Ok {A} a.
Arguments Error {A} e.

Definition bind {A B : Type} (r : result A) (k : A -> result B) : result B :=
  match r with
  | Ok a => k a
  | Error e => Error e
  end.

Notation "x <- e ;; k" := (bind e (fun x => k))
  (at level 61, e at next level, right associativity).
Notation "e ;;; k" := (bind e (fun _ => k))
  (at level 61, right associativity).

(** [assert c]: the Python statement [assert c]. *)
Definition assert (c : bool) : result unit :=
  if c then Ok tt else Error AssertionError.

(** A list comprehension whose element expression may raise. *)
Fixpoint mapM {A B : Type} (f : A -> result B) (l : list A) : result (list B) :=
  match l with
  | [] => Ok []
  | a :: l' => b <- f a ;; bs <- mapM f l' ;; Ok (b :: bs)
  end.

(** Sequence indexing [l[i]] for [0 <= i]. *)
Definition getitem {A : Type} (l : list A) (i : nat) : result A :=
  match nth_error l i with
  | Some a => Ok a
  | None => Error IndexError
  end.

(** ** Python values that occur in identities and headers *)

(** The values of an identity: integers and strings. *)
Inductive pyval : Type :=
| VInt (z : Z)
| VStr (s : string).

(** The plain-old-data values of a header. *)
Inductive pod : Type :=
| PInt (z : Z)
| PStr (s : string)
| PBool (b : bool)
| PFloat (x : float).

(** A [dict] with [str] keys, in insertion order. *)
Definition dict (V : Type) := list (string * V).

Fixpoint dict_get {V : Type} (d : dict V) (key : string) : result V :=
  match d with
  | [] => Error (KeyError key)
  | (k, v) :: d' => if String.eqb k key then Ok v else dict_get d' key
  end.

(** [d[key] = v]: overwrite in place when the key is present, else append. *)
Fixpoint dict_set {V : Type} (d : dict V) (key : string) (v : V) : dict V :=
  match d with
  | [] => [(key, v)]
  | (k, w) :: d' =>
      if String.eqb k key then (k, v) :: d' else (k, w) :: dict_set d' key v
  end.

(** ** Strings *)

Definition chars (s : string) : list ascii := list_ascii_of_string s.
Definition str (l : list ascii) : string := string_of_list_ascii l.

Definition is_digit (c : ascii) : bool :=
  let n := nat_of_ascii c in (48 <=? n)%nat && (n <=? 57)%nat.

(** [str.isspace] on one character of the Latin-1 range: the characters that
    [\s] matches in a [str] pattern. *)
Definition is_space (c : ascii) : bool :=
  let n := nat_of_ascii c in
  ((9 <=? n)%nat && (n <=? 13)%nat) || ((28 <=? n)%nat && (n <=? 32)%nat)
  || (n =? 133)%nat || (n =? 160)%nat.

(** [os.path.split(path)[1]] on POSIX: what follows the last slash. *)
Fixpoint basename_aux (l : list ascii) (acc : list ascii) : list ascii :=
  match l with
  | [] => rev acc
  | c :: l' =>
      if Ascii.eqb c "/" then basename_aux l' [] else basename_aux l' (c :: acc)
  end.

Definition basename (path : string) : string := str (basename_aux (chars path) []).

(** [os.path.join(a, b)] on POSIX. *)
Definition path_join (a b : string) : string :=
  match chars b with
  | "/"%char :: _ => b
  | _ =>
      match rev (chars a) with
      | [] => b
      | "/"%char :: _ => (a ++ b)%string
      | _ => (a ++ "/" ++ b)%string
      end
  end.

Definition to_lower (c : ascii) : ascii :=
  let n := nat_of_ascii c in
  if (65 <=? n)%nat && (n <=? 90)%nat then ascii_of_nat (n + 32) else c.

Definition to_upper (c : ascii) : ascii :=
  let n := nat_of_ascii c in
  if (97 <=? n)%nat && (n <=? 122)%nat then ascii_of_nat (n - 32) else c.

Definition upper (s : string) : string := str (map to_upper (chars s)).

(** Decimal and lower-case hexadecimal digits of a natural number. *)
Definition dec_digits (n : N) : string :=
  DecimalString.NilZero.string_of_uint (N.to_uint n).

Definition hex_digits (n : N) : string :=
  HexadecimalString.NilZero.string_of_uint (N.to_hex_uint n).

(** [int(s)] for a string of decimal digits with an optional sign.  (Python
    also accepts surrounding white space and underscores between digits; no
    capture of the grammars below can contain them.) *)
Definition nat_of_digits (l : list ascii) : result Z :=
  match l with
  | [] => Error ValueError
  | _ =>
      match DecimalString.NilEmpty.uint_of_string (str l) with
      | Some u => Ok (Z.of_N (N.of_uint u))
      | None => Error ValueError
      end
  end.

Definition int_of_str (s : string) : result Z :=
  match chars s with
  | "-"%char :: l => n <- nat_of_digits l ;; Ok (- n)
  | "+"%char :: l => nat_of_digits l
  | l => nat_of_digits l
  end.

(** [int(s, 16)] for a string of hexadecimal digits with an optional [0x]. *)
Definition int_of_hex (s : string) : result Z :=
  let l := map to_lower (chars s) in
  let body := match l with
              | "0"%char :: "x"%char :: l' => l'
              | _ => l
              end in
  match body with
  | [] => Error ValueError
  | _ =>
      match HexadecimalString.NilEmpty.uint_of_string (str body) with
      | Some u => Ok (Z.of_N (N.of_hex_uint u))
      | None => Error ValueError
      end
  end.

(** [int(v)] as [CalibIdentity.__init__] applies it. *)
Definition py_int (v : pyval) : result Z :=
  match v with
  | VInt z => Ok z
  | VStr s => int_of_str s
  end.

(** ** The [%] operator on a format string and a [dict]

    Only the directives the filename formats use are interpreted:
    [%(key)] followed by an optional [0] flag, an optional width and one of the
    conversions [d], [x] and [s]. *)

Inductive fmt_item : Type :=
| FLit (c : ascii)
| FField (key : string) (zero : bool) (width : nat) (conv : ascii).

Inductive fmt_state : Type :=
| SText
| SPercent
| SKey (acc : list ascii)
| SSpec (key : string) (zero : bool) (width : option nat).

Definition digit_val (c : ascii) : nat := nat_of_ascii c - 48.

Fixpoint parse_format (st : fmt_state) (s : list ascii) : result (list fmt_item) :=
  match s with
  | [] =>
      match st with
      | SText => Ok []
      | _ => Error ValueError
      end
  | c :: s' =>
      match st with
      | SText =>
          if Ascii.eqb c "%" then parse_format SPercent s'
          else items <- parse_format SText s' ;; Ok (FLit c :: items)
      | SPercent =>
          if Ascii.eqb c "(" then parse_format (SKey []) s'
          else if Ascii.eqb c "%" then
            items <- parse_format SText s' ;; Ok (FLit c :: items)
          else Error TypeError
      | SKey acc =>
          if Ascii.eqb c ")" then parse_format (SSpec (str (rev acc)) false None) s'
          else parse_format (SKey (c :: acc)) s'
      | SSpec key zero width =>
          match width with
          | None =>
              if Ascii.eqb c "0" then parse_format (SSpec key true None) s'
              else if is_digit c then
                parse_format (SSpec key zero (Some (digit_val c))) s'
              else if Ascii.eqb c "d" || Ascii.eqb c "x" || Ascii.eqb c "s" then
                items <- parse_format SText s' ;; Ok (FField key zero 0 c :: items)
              else Error ValueError
          | Some w =>
              if is_digit c then
                parse_format (SSpec key zero (Some (10 * w + digit_val c)%nat)) s'
              else if Ascii.eqb c "d" || Ascii.eqb c "x" || Ascii.eqb c "s" then
                items <- parse_format SText s' ;; Ok (FField key zero w c :: items)
              else Error ValueError
          end
      end
  end.

(** A number in a field: the sign first, then zeros when the [0] flag is set,
    else blanks before the sign. *)
Definition format_int (digits : N -> string) (zero : bool) (width : nat) (z : Z)
  : list ascii :=
  let sign := if z <? 0 then ["-"%char] else [] in
  let body := chars (digits (Z.abs_N z)) in
  if zero then
    sign ++ repeat "0"%char (width - List.length sign - List.length body) ++ body
  else
    repeat " "%char (width - List.length sign - List.length body) ++ sign ++ body.

(** [str(v)]. *)
Definition py_str (v : pyval) : list ascii :=
  match v with
  | VStr s => chars s
  | VInt z => format_int dec_digits false 0 z
  end.

Definition format_item (d : dict pyval) (it : fmt_item) : result (list ascii) :=
  match it with
  | FLit c => Ok [c]
  | FField key zero width conv =>
      v <- dict_get d key ;;
      if Ascii.eqb conv "s" then
        let body := py_str v in
        Ok (repeat " "%char (width - List.length body) ++ body)
      else
        match v with
        | VInt z =>
            Ok (format_int (if Ascii.eqb conv "x" then hex_digits else dec_digits)
                           zero width z)
        | VStr _ => Error TypeError
        end
  end.

(** [fmt % d]. *)
Definition py_format (fmt : string) (d : dict pyval) : result string :=
  items <- parse_format SText (chars fmt) ;;
  parts <- mapM (format_item d) items ;;
  Ok (str (List.concat parts)).

(** ** Regular expressions ([re])

    The fragment the filename patterns are written in: literals, [.], [\d],
    [\S], escaped punctuation, a set [[...]] of plain characters, the
    quantifiers [{n}] and [*] on a one-character item, the anchors [^] and [$],
    and groups [(...)] and [(?P<name>...)].  A pattern is compiled to a
    sequence of instructions and run by a backtracking matcher with greedy
    repetition, as [re] does. *)

Inductive cls : Type :=
| CAny
| CDigit
| CNonSpace
| CLit (c : ascii)
| CSet (cs : list ascii).

Inductive instr : Type :=
| IBol
| IEol
| IChar (c : cls)
| IStar (c : cls)
| IOpen (name : option string)
| IClose.

Definition newline : ascii := ascii_of_nat 10.

Definition cls_match (k : cls) (c : ascii) : bool :=
  match k with
  | CAny => negb (Ascii.eqb c newline)
  | CDigit => is_digit c
  | CNonSpace => negb (is_space c)
  | CLit c' => Ascii.eqb c c'
  | CSet cs => existsb (Ascii.eqb c) cs
  end.

Inductive rx_state : Type :=
| RNone
| RPend (k : cls)
| REsc
| RSet (acc : list ascii)
| RCount (k : cls) (n : option nat)
| RGrp0
| RGrpQ
| RGrpP
| RName (acc : list ascii).

Definition is_alnum (c : ascii) : bool :=
  let n := nat_of_ascii c in
  is_digit c || ((65 <=? n)%nat && (n <=? 90)%nat) || ((97 <=? n)%nat && (n <=? 122)%nat).

(** One pattern character read with no group header, escape, set or count
    open; [pend] is the item that still awaits its quantifier. *)
Definition rx_plain (pend : option cls) (c : ascii) : result (list instr * rx_state) :=
  let flush := match pend with
               | Some k => [IChar k]
               | None => []
               end in
  if Ascii.eqb c "*" then
    match pend with
    | Some k => Ok ([IStar k], RNone)
    | None => Error re_error
    end
  else if Ascii.eqb c "{" then
    match pend with
    | Some k => Ok ([], RCount k None)
    | None => Error re_error
    end
  else if Ascii.eqb c "\" then Ok (flush, REsc)
  else if Ascii.eqb c "[" then Ok (flush, RSet [])
  else if Ascii.eqb c "(" then Ok (flush, RGrp0)
  else if Ascii.eqb c ")" then Ok (flush ++ [IClose], RNone)
  else if Ascii.eqb c "^" then Ok (flush ++ [IBol], RNone)
  else if Ascii.eqb c "$" then Ok (flush ++ [IEol], RNone)
  else if Ascii.eqb c "." then Ok (flush, RPend CAny)
  else if Ascii.eqb c "+" || Ascii.eqb c "?" || Ascii.eqb c "|" || Ascii.eqb c "}"
          || Ascii.eqb c "]" then Error re_error
  else Ok (flush, RPend (CLit c)).

Definition rx_step (st : rx_state) (c : ascii) : result (list instr * rx_state) :=
  match st with
  | RNone => rx_plain None c
  | RPend k => rx_plain (Some k) c
  | REsc =>
      if Ascii.eqb c "d" then Ok ([], RPend CDigit)
      else if Ascii.eqb c "S" then Ok ([], RPend CNonSpace)
      else if is_alnum c then Error re_error
      else Ok ([], RPend (CLit c))
  | RSet acc =>
      if Ascii.eqb c "]" then Ok ([], RPend (CSet (rev acc)))
      else if Ascii.eqb c "\" || Ascii.eqb c "-" || Ascii.eqb c "^" || Ascii.eqb c "["
      then Error re_error
      else Ok ([], RSet (c :: acc))
  | RCount k n =>
      if is_digit c then
        Ok ([], RCount k (Some (10 * match n with Some m => m | None => 0 end
                                + digit_val c)%nat))
      else if Ascii.eqb c "}" then
        match n with
        | Some m => Ok (repeat (IChar k) m, RNone)
        | None => Error re_error
        end
      else Error re_error
  | RGrp0 =>
      if Ascii.eqb c "?" then Ok ([], RGrpQ)
      else
        r <- rx_plain None c ;;
        Ok (IOpen None :: fst r, snd r)
  | RGrpQ => if Ascii.eqb c "P" then Ok ([], RGrpP) else Error re_error
  | RGrpP => if Ascii.eqb c "<" then Ok ([], RName []) else Error re_error
  | RName acc =>
      if Ascii.eqb c ">" then Ok ([IOpen (Some (str (rev acc)))], RNone)
      else Ok ([], RName (c :: acc))
  end.

Fixpoint rx_parse (st : rx_state) (pat : list ascii) : result (list instr) :=
  match pat with
  | [] =>
      match st with
      | RNone => Ok []
      | RPend k => Ok [IChar k]
      | _ => Error re_error
      end
  | c :: pat' =>
      r <- rx_step st c ;;
      rest <- rx_parse (snd r) pat' ;;
      Ok (fst r ++ rest)
  end.

(** [re.compile(pattern)]. *)
Definition re_compile (pattern : string) : result (list instr) :=
  rx_parse RNone (chars pattern).

(** A closed group: its number (in order of opening, from 0), its name, and
    the positions where it starts and ends. *)
Definition capture : Type := nat * option string * nat * nat.

Definition cap_index (c : capture) : nat := fst (fst (fst c)).

Fixpoint cap_insert (c : capture) (l : list capture) : list capture :=
  match l with
  | [] => [c]
  | c' :: l' =>
      if (cap_index c <? cap_index c')%nat then c :: l else c' :: cap_insert c l'
  end.

(** [re_run prog s pos ngroups opens done]: match the instructions [prog]
    against [s], the input from position [pos] on.  [opens] are the groups
    entered and not yet left, [done] the groups left, by group number.  The
    result is the end position of the match and its groups. *)
Fixpoint re_run (prog : list instr) (s : list ascii) (pos ngroups : nat)
         (opens : list (nat * option string * nat)) (done : list capture)
  : option (nat * list capture) :=
  match prog with
  | [] => Some (pos, done)
  | IBol :: prog' =>
      if (pos =? 0)%nat then re_run prog' s pos ngroups opens done else None
  | IEol :: prog' =>
      match s with
      | [] => re_run prog' s pos ngroups opens done
      | [c] =>
          if Ascii.eqb c newline then re_run prog' s pos ngroups opens done else None
      | _ => None
      end
  | IChar k :: prog' =>
      match s with
      | c :: s' =>
          if cls_match k c then re_run prog' s' (S pos) ngroups opens done else None
      | [] => None
      end
  | IStar k :: prog' =>
      (fix star (s : list ascii) (pos : nat) {struct s} : option (nat * list capture) :=
         match s with
         | c :: s' =>
             if cls_match k c then
               match star s' (S pos) with
               | Some m => Some m
               | None => re_run prog' s pos ngroups opens done
               end
             else re_run prog' s pos ngroups opens done
         | [] => re_run prog' s pos ngroups opens done
         end) s pos
  | IOpen name :: prog' =>
      re_run prog' s pos (S ngroups) ((ngroups, name, pos) :: opens) done
  | IClose :: prog' =>
      match opens with
      | (i, name, start) :: opens' =>
          re_run prog' s pos ngroups opens' (cap_insert (i, name, start, pos) done)
      | [] => None
      end
  end.

(** A match object: the searched string, the span of the match, its groups. *)
Record Match : Type := mkMatch {
  m_string : list ascii;
  m_start : nat;
  m_end : nat;
  m_captures : list capture
}.

(** Try the start positions from left to right. *)
Fixpoint re_scan (prog : list instr) (whole s : list ascii) (pos : nat) : option Match :=
  match re_run prog s pos 0 [] [] with
  | Some (e, caps) => Some (mkMatch whole pos e caps)
  | None =>
      match s with
      | [] => None
      | _ :: s' => re_scan prog whole s' (S pos)
      end
  end.

(** [re.search(pattern, string)]: [Ok None] when nothing matches. *)
Definition re_search (pattern : string) (s : string) : result (option Match) :=
  prog <- re_compile pattern ;;
  Ok (re_scan prog (chars s) (chars s) 0).

Definition cap_text (m : Match) (c : capture) : string :=
  let '(_, _, start, stop) := c in
  str (firstn (stop - start) (skipn start (m_string m))).

(** [m.groups()]. *)
Definition groups (m : Match) : list string :=
  map (cap_text m) (m_captures m).

(** [m.groupdict()]: the named groups. *)
Definition groupdict (m : Match) : dict pyval :=
  flat_map (fun c : capture =>
              match snd (fst (fst c)) with
              | Some name => [(name, VStr (cap_text m c))]
              | None => []
              end) (m_captures m).

(** ** drp.py: the filename grammars of the reduction products *)

(** The callables [int] and [str] of a [filenameKeys] entry. *)
Inductive pytype : Type :=
| Tint
| Tstr.

(** The three class attributes every product class declares. *)
Record ProductClass : Type := mkProduct {
  filenameFormat : string;
  filenameRegex : string;
  filenameKeys : list (string * pytype)
}.

Definition PfsArm : ProductClass := {|
  filenameFormat := "pfsArm-%(expId)06d-%(arm)1s%(spectrograph)1d.fits";
  filenameRegex := "^pfsArm-(\d{6})-([brnm])(\d)\.fits.*$";
  filenameKeys := [("expId", Tint); ("arm", Tstr); ("spectrograph", Tint)]
|}.

Definition PfsMerged : ProductClass := {|
  filenameFormat := "pfsMerged-%(expId)06d.fits";
  filenameRegex := "^pfsMerged-(\d{6})\.fits.*$";
  filenameKeys := [("expId", Tint)]
|}.

Definition PfsReference : ProductClass := {|
  filenameFormat := "pfsReference-%(catId)03d-%(tract)05d-%(patch)s-%(objId)016x.fits";
  filenameRegex := "^pfsReference-(\d{3})-(\d{5})-(.*)-(0x.{8})\.fits.*$";
  filenameKeys := [("catId", Tint); ("tract", Tint); ("patch", Tstr); ("objId", Tint)]
|}.

Definition PfsSingle : ProductClass := {|
  filenameFormat :=
    "pfsSingle-%(catId)03d-%(tract)05d-%(patch)s-%(objId)016x-%(expId)06d.fits";
  filenameRegex := "^pfsSingle-(\d{3})-(\d{5})-(.*)-(0x.{16})-(\d{6})\.fits.*$";
  filenameKeys := [("catId", Tint); ("tract", Tint); ("patch", Tstr); ("objId", Tint);
                   ("expId", Tint)]
|}.

Definition PfsObject : ProductClass := {|
  filenameFormat :=
    "pfsObject-%(catId)03d-%(tract)05d-%(patch)s-%(objId)016x-%(numExp)03d-%(expHash)08x.fits";
  filenameRegex :=
    "^pfsObject-(\d{3})-(\d{5})-(.*)-(0x.{16})-(\d{3})-(0x.{8})\.fits.*$";
  filenameKeys := [("catId", Tint); ("tract", Tint); ("patch", Tstr); ("objId", Tint);
                   ("numExp", Tint); ("expHash", Tint)]
|}.

Definition drp_classes : list ProductClass :=
  [PfsArm; PfsMerged; PfsReference; PfsSingle; PfsObject].

Definition starts_with_0x (s : string) : bool :=
  match chars s with
  | "0"%char :: "x"%char :: _ => true
  | _ => false
  end.

(** Modelled from the spec: the coercion of a captured group to its declared
    type by the [parseFilename] of the base classes [PfsSpectra],
    [PfsSimpleSpectrum] and [PfsSpectrum], which are not among the sources.
    The spec (section 6): "coerce captured groups to the declared types
    ([objId], [expHash] parsed from hex)"; the captures parsed from hex are the
    ones written with [0x]. *)
Definition coerce (t : pytype) (s : string) : result pyval :=
  match t with
  | Tstr => Ok (VStr s)
  | Tint =>
      z <- (if starts_with_0x s then int_of_hex s else int_of_str s) ;;
      Ok (VInt z)
  end.

Fixpoint coerce_groups (keys : list (string * pytype)) (gs : list string)
  : result (dict pyval) :=
  match keys, gs with
  | (k, t) :: keys', g :: gs' =>
      v <- coerce t g ;;
      d <- coerce_groups keys' gs' ;;
      Ok ((k, v) :: d)
  | _, _ => Ok []
  end.

(** Modelled from the spec: [getFilename] of the reduction products, inherited
    from base classes that are not among the sources.  The spec (section 4.1):
    "[filename(identity) -> str] renders from the format template; fails when
    required keys are absent". *)
Definition product_getFilename (C : ProductClass) (identity : dict pyval)
  : result string :=
  py_format (filenameFormat C) identity.

(** Modelled from the spec: [parseFilename] of the reduction products,
    inherited from base classes that are not among the sources.  The spec
    (section 4.1): "[parse(path) -> identity] strips directory, matches
    basename against regex, and coerces captured groups; fails with a parse
    error when the regex does not match". *)
Definition product_parseFilename (C : ProductClass) (path : string)
  : result (dict pyval) :=
  let fileName := basename path in
  matches <- re_search (filenameRegex C) fileName ;;
  match matches with
  | None => Error ParseError
  | Some m => coerce_groups (filenameKeys C) (groups m)
  end.

(** ** pfsFiberProfiles.py: CalibIdentity *)

Module CalibIdentity.

(** The instance attributes [__init__] sets.  The class docstring types
    [obsDate] and [arm] as [str]. *)
Record t : Type := mk {
  obsDate : string;
  spectrograph : Z;
  arm : string;
  visit0 : Z
}.

Definition elements : list string := ["obsDate"; "spectrograph"; "arm"; "visit0"].

Definition __init__ (obsDate : string) (spectrograph : pyval) (arm : string)
           (visit0 : pyval) : result t :=
  s <- py_int spectrograph ;;
  v <- py_int visit0 ;;
  Ok (mk obsDate s arm v).

Definition as_str (v : pyval) : result string :=
  match v with
  | VStr s => Ok s
  | VInt _ => Error TypeError
  end.

Definition fromDict (identity : dict pyval) : result t :=
  o <- dict_get identity "obsDate" ;;
  s <- dict_get identity "spectrograph" ;;
  a <- dict_get identity "arm" ;;
  v <- dict_get identity "visit0" ;;
  o' <- as_str o ;;
  a' <- as_str a ;;
  __init__ o' s a' v.

Definition toDict (self : t) : dict pyval :=
  [("obsDate", VStr (obsDate self)); ("spectrograph", VInt (spectrograph self));
   ("arm", VStr (arm self)); ("visit0", VInt (visit0 self))].

(** What an attribute reference on an instance evaluates to. *)
Inductive attr : Type :=
| AValue (v : pyval)
| AElements (l : list string)
| AFromDict
| AToDict
| ASpecial.

Definition is_special (name : string) : bool :=
  match chars name with
  | "_"%char :: "_"%char :: _ => true
  | _ => false
  end.

(** [self.name]: the instance attributes, then the attributes of the class.
    The base classes [SimpleNamespace] and [object] contribute only special
    names (two leading underscores), which are not told apart here. *)
Definition getattr (self : t) (name : string) : result attr :=
  if String.eqb name "obsDate" then Ok (AValue (VStr (obsDate self)))
  else if String.eqb name "spectrograph" then Ok (AValue (VInt (spectrograph self)))
  else if String.eqb name "arm" then Ok (AValue (VStr (arm self)))
  else if String.eqb name "visit0" then Ok (AValue (VInt (visit0 self)))
  else if String.eqb name "elements" then Ok (AElements elements)
  else if String.eqb name "fromDict" then Ok AFromDict
  else if String.eqb name "toDict" then Ok AToDict
  else if is_special name then Ok ASpecial
  else Error (AttributeError
                ("'CalibIdentity' object has no attribute '" ++ name ++ "'")%string).

(** [a()] for an attribute [a] of [self], called with no argument: only
    [toDict] can be called so. *)
Definition call0 (self : t) (a : attr) : result (dict pyval) :=
  match a with
  | AToDict => Ok (toDict self)
  | _ => Error TypeError
  end.

End CalibIdentity.

(** ** numpy *)

(** [numpy.float64(n)] for an integer [n]: rounding to nearest, ties to even. *)
Definition float_of_int (z : Z) : float :=
  SF2Prim (binary_normalize prec emax z 0 false).

(** [int(x)]: truncation towards zero; an infinity and a NaN raise. *)
Definition int_of_float (x : float) : result Z :=
  match Prim2SF x with
  | S754_zero _ => Ok 0
  | S754_infinity _ => Error OverflowError
  | S754_nan => Error ValueError
  | S754_finite s m e =>
      let v := match e with
               | Zneg p => Z.pos m / 2 ^ Z.pos p
               | _ => Z.pos m * 2 ^ e
               end in
      Ok (if s then - v else v)
  end.

(** Arithmetic on [numpy.int64] wraps around. *)
Definition wrap64 (z : Z) : Z := (z + 2 ^ 63) mod 2 ^ 64 - 2 ^ 63.

(** The integer dtypes that occur: [numpy.array] makes int64 of a list of
    Python integers, and a [J] column of a FITS table is int32. *)
Inductive int_dtype : Type :=
| int32
| int64.

(** Arithmetic on [numpy.int32] wraps around as well; so does the cast of an
    int64 to int32 when an array is stored in a [J] column. *)
Definition wrap32 (z : Z) : Z := (z + 2 ^ 31) mod 2 ^ 32 - 2 ^ 31.

Definition wrap (dtype : int_dtype) (z : Z) : Z :=
  match dtype with
  | int32 => wrap32 z
  | int64 => wrap64 z
  end.

(** [numpy.float32(x)], the cast of a float64 when an array is stored in an
    [E] or [PE()] column: rounding to nearest, ties to even; what exceeds
    the range becomes an infinity.  A float32 is held as the float64 of the
    same value, which is what numpy makes of it in mixed arithmetic. *)
Definition float32 (x : float) : float :=
  match Prim2SF x with
  | S754_finite s m e => SF2Prim (binary_round 24 128 s m e)
  | _ => x
  end.

(** [numpy.array(l)] for a list of lists: the rows must have one length. *)
Definition rectangular {A : Type} (l : list (list A)) : bool :=
  match l with
  | [] => true
  | r :: l' => forallb (fun r' => (List.length r' =? List.length r)%nat) l'
  end.

Definition np_array {A : Type} (l : list (list A)) : result (list (list A)) :=
  if rectangular l then Ok l else Error ValueError.

(** [a.shape] and [a.size] of such an array; an empty list makes the
    one-dimensional array of shape [(0,)]. *)
Definition shape {A : Type} (a : list (list A)) : list nat :=
  match a with
  | [] => [0%nat]
  | r :: _ => [List.length a; List.length r]
  end.

Definition size {A : Type} (a : list (list A)) : nat := List.length (List.concat a).

Fixpoint shape_eqb (s1 s2 : list nat) : bool :=
  match s1, s2 with
  | [], [] => true
  | n1 :: s1', n2 :: s2' => (n1 =? n2)%nat && shape_eqb s1' s2'
  | _, _ => false
  end.

(** [a[select]] for a boolean array [select]: the entries at the true
    positions, in order; the lengths must agree. *)
Fixpoint compress {A : Type} (a : list A) (select : list bool) : list A :=
  match a, select with
  | x :: a', b :: select' => if b then x :: compress a' select' else compress a' select'
  | _, _ => []
  end.

Definition bool_index {A : Type} (a : list A) (select : list bool) : result (list A) :=
  if (List.length a =? List.length select)%nat then Ok (compress a select)
  else Error IndexError.

(** [a[start:stop] = x] for a scalar [x] and for an array [v]: the slice is
    clipped to the array; an array is stored when it has the length of the
    slice or one element. *)
Definition slice_lo {A : Type} (a : list A) (start : nat) : nat :=
  Nat.min start (List.length a).

Definition slice_hi {A : Type} (a : list A) (start stop : nat) : nat :=
  Nat.max (slice_lo a start) (Nat.min stop (List.length a)).

Definition slice_fill {A : Type} (a : list A) (start stop : nat) (x : A) : list A :=
  let lo := slice_lo a start in
  let hi := slice_hi a start stop in
  firstn lo a ++ repeat x (hi - lo) ++ skipn hi a.

Definition slice_assign {A : Type} (a : list A) (start stop : nat) (v : list A)
  : result (list A) :=
  let lo := slice_lo a start in
  let hi := slice_hi a start stop in
  match v with
  | [x] => Ok (firstn lo a ++ repeat x (hi - lo) ++ skipn hi a)
  | _ =>
      if (List.length v =? hi - lo)%nat then Ok (firstn lo a ++ v ++ skipn hi a)
      else Error ValueError
  end.

(** One row of a fiber's profile array, as an iteration over the array
    yields it: a row of a [numpy.ma.MaskedArray] that has a mask array, with
    its data and its mask; a row of a [numpy.ma.MaskedArray] whose mask is
    [nomask]; or a row of a plain array or list. *)
Inductive profile_row : Type :=
| MaskedRow (data : list float) (mask : list bool)
| NomaskRow (data : list float)
| PlainRow (data : list float).

Definition row_data (pp : profile_row) : list float :=
  match pp with
  | MaskedRow data _ => data
  | NomaskRow data => data
  | PlainRow data => data
  end.

(** [len(pp)]. *)
Definition row_len (pp : profile_row) : nat := List.length (row_data pp).

(** Cut a flat list into rows as long as the rows of [data]. *)
Fixpoint reshape_like {A B : Type} (data : list (list A)) (flat : list B) : list (list B) :=
  match data with
  | [] => []
  | r :: data' =>
      firstn (List.length r) flat :: reshape_like data' (skipn (List.length r) flat)
  end.

Fixpoint zip_rows (data : list (list float)) (mask : list (list bool)) : list profile_row :=
  match data, mask with
  | d :: data', m :: mask' => MaskedRow d m :: zip_rows data' mask'
  | _, _ => []
  end.

(** [numpy.ma.masked_array(data, mask=mask)] for a two-dimensional [data];
    [mask] is [None] for the scalar [False], which masks nothing.  A mask of
    another shape is accepted when it has one element (it is repeated) or as
    many elements as the data (it is reshaped); else [MaskError]. *)
Definition masked_array (data : list (list float)) (mask : option (list (list bool)))
  : result (list profile_row) :=
  match mask with
  | None => Ok (map (fun d => MaskedRow d (repeat false (List.length d))) data)
  | Some m =>
      if shape_eqb (shape m) (shape data) then Ok (zip_rows data m)
      else
        match List.concat m with
        | [b] => Ok (map (fun d => MaskedRow d (repeat b (List.length d))) data)
        | flat =>
            if (size m =? size data)%nat then Ok (zip_rows data (reshape_like data flat))
            else Error MaskError
        end
  end.

(** [numpy.ma.getmaskarray(pp)]: the mask of a row, all [False] for a row
    without one. *)
Definition getmaskarray (pp : profile_row) : list bool :=
  match pp with
  | MaskedRow _ mask => mask
  | NomaskRow data => repeat false (List.length data)
  | PlainRow data => repeat false (List.length data)
  end.

(** The rows are those of one [numpy.ma.MaskedArray] that has a mask array. *)
Definition has_mask_array (pp : list profile_row) : bool :=
  forallb (fun r => match r with MaskedRow _ _ => true | _ => false end) pp.

(** [numpy.ma.masked_array(pp)] for the profiles [pp] given for one fiber.
    The rows must have one length ([numpy.array] raises a ValueError for an
    inhomogeneous shape).  A [MaskedArray] keeps its mask array, and one
    without a mask array stays without; a plain array or list gets no mask
    array; of a list that mixes rows with and without a mask the masks are
    gathered when one of them masks something.  No plain row is left. *)
Definition masked_array_of (pp : list profile_row) : result (list profile_row) :=
  if rectangular (map row_data pp) then
    if has_mask_array pp then Ok pp
    else if existsb (fun r => existsb (fun b => b) (getmaskarray r)) pp
         then Ok (map (fun r => MaskedRow (row_data r) (getmaskarray r)) pp)
         else Ok (map (fun r => NomaskRow (row_data r)) pp)
  else Error ValueError.

(** ** astropy: headers and the HDU list *)

(** Modelled from the spec: [astropyHeaderFromDict] and [astropyHeaderToDict]
    of [pfs.datamodel.utils], which is not among the sources.  The spec
    (section 4.2): "Keywords are uppercased on emit; unknown keys are preserved
    on read". *)
Definition astropyHeaderFromDict (metadata : dict pod) : dict pod :=
  fold_left (fun header kv => dict_set header (upper (fst kv)) (snd kv)) metadata [].

Definition astropyHeaderToDict (header : dict pod) : dict pod := header.

(** [header.remove(keyword, ignore_missing=True)]: the first card of that
    keyword goes. *)
Fixpoint dict_remove {V : Type} (d : dict V) (key : string) : dict V :=
  match d with
  | [] => []
  | (k, v) :: d' => if String.eqb k key then d' else (k, v) :: dict_remove d' key
  end.

(** [range(header.get(keyword, 0))], for a card that holds an integer or a
    bool as FITS requires of [NAXIS] and [TFIELDS]. *)
Definition card_range (header : dict pod) (keyword : string) : list nat :=
  match dict_get header keyword with
  | Ok (PInt z) => seq 0 (Z.to_nat z)
  | Ok (PBool true) => [0%nat]
  | _ => []
  end.

(** [name + str(idx + 1)]. *)
Definition numbered (name : string) (idx : nat) : string :=
  (name ++ dec_digits (N.of_nat (idx + 1)))%string.

(** [Header._strip]: the cards that describe the structure of an HDU go. *)
Definition _strip (header : dict pod) : dict pod :=
  let naxis := card_range header "NAXIS" in
  let tfields := card_range header "TFIELDS" in
  let header :=
    fold_left (fun h idx => dict_remove h (numbered "NAXIS" idx)) naxis header in
  let header :=
    fold_left
      (fun h name => fold_left (fun h' idx => dict_remove h' (numbered name idx)) tfields h)
      ["TFORM"; "TSCAL"; "TZERO"; "TNULL"; "TTYPE"; "TUNIT"; "TDISP"; "TDIM"; "THEAP";
       "TBCOL"]
      header in
  fold_left (@dict_remove pod)
    ["SIMPLE"; "XTENSION"; "BITPIX"; "NAXIS"; "EXTEND"; "PCOUNT"; "GCOUNT"; "GROUPS";
     "BSCALE"; "BZERO"; "TFIELDS"]
    header.

(** The header of [PrimaryHDU(header=header)] once it heads an [HDUList]
    with extensions: the cards [SIMPLE], [BITPIX] and [NAXIS] of an HDU
    without data, the card [EXTEND] the list inserts after [NAXIS], and then
    the cards given, stripped of the structural ones. *)
Definition PrimaryHDU (header : dict pod) : dict pod :=
  [("SIMPLE", PBool true); ("BITPIX", PInt 8); ("NAXIS", PInt 0); ("EXTEND", PBool true)]
  ++ _strip header.

(** The columns of the [FIBERS] and of the [PROFILES] binary tables.  The
    [J] columns hold int32 values, the [E] and [PE()] columns float32 values
    and the [PL()] column booleans. *)
Record FibersTable : Type := mkFibers {
  F_fiberId : list Z;
  F_radius : list Z;
  F_oversample : list float;
  F_norm : list (list float)
}.

Record ProfilesTable : Type := mkProfiles {
  P_fiberId : list Z;
  P_rows : list float;
  P_profiles : list (list float);
  P_masks : list (list bool)
}.

(** The [HDUList] of a fiber profiles file: the primary header and the two
    table extensions. *)
Record HDUList : Type := mkHDUList {
  header : dict pod;
  FIBERS : FibersTable;
  PROFILES : ProfilesTable
}.

(** ** pfsFiberProfiles.py: PfsFiberProfiles *)

Module PfsFiberProfiles.

Definition filenameFormat : string :=
  "pfsFiberProfiles-%(obsDate)10s-%(visit0)06d-%(arm)1s%(spectrograph)1d.fits".

Definition filenameRegex : string :=
  "pfsFiberProfiles-(?P<obsDate>\S{10})-(?P<visit0>\d{6})-(?P<arm>\S)(?P<spectrograph>\d).fits".

Record t : Type := mk {
  identity : CalibIdentity.t;
  fiberId : list Z;
  radius : list Z;
  oversample : list float;
  rows : list (list float);
  profiles : list (list profile_row);
  norm : list (list float);
  metadata : dict pod;
  length : nat;
  radius_dtype : int_dtype
}.

(** [int(2*(rad + 1)*samp) + 1] for an element [rad] of the integer array
    [radius], of the dtype [dtype], and an element [samp] of the float array
    [oversample]: the sum and the product with the Python integers stay in
    [dtype] and wrap around, the product with [samp] is a float64. *)
Definition profile_width (dtype : int_dtype) (rad : Z) (samp : float) : result Z :=
  n <- int_of_float (float_of_int (wrap dtype (2 * wrap dtype (rad + 1))) * samp)%float ;;
  Ok (n + 1).

(** [all(len(pp) == int(2*(rad + 1)*samp) + 1 for pp in prof)]: the width is
    computed once per row met, and the scan stops at the first mismatch. *)
Fixpoint all_widths (dtype : int_dtype) (prof : list profile_row) (rad : Z) (samp : float)
  : result bool :=
  match prof with
  | [] => Ok true
  | pp :: prof' =>
      w <- profile_width dtype rad samp ;;
      if Z.of_nat (row_len pp) =? w then all_widths dtype prof' rad samp else Ok false
  end.

(** [zip(self.profiles, self.radius, self.oversample)]. *)
Fixpoint zip3 {A B C : Type} (la : list A) (lb : list B) (lc : list C)
  : list (A * B * C) :=
  match la, lb, lc with
  | a :: la', b :: lb', c :: lc' => (a, b, c) :: zip3 la' lb' lc'
  | _, _, _ => []
  end.

Fixpoint check_widths (dtype : int_dtype) (l : list (list profile_row * Z * float))
  : result unit :=
  match l with
  | [] => Ok tt
  | (prof, rad, samp) :: l' =>
      b <- all_widths dtype prof rad samp ;;
      assert b ;;;
      check_widths dtype l'
  end.

Definition validate (self : t) : result unit :=
  assert (List.length (fiberId self) =? length self)%nat ;;;
  assert (List.length (radius self) =? length self)%nat ;;;
  assert (List.length (oversample self) =? length self)%nat ;;;
  assert (List.length (rows self) =? length self)%nat ;;;
  assert (List.length (profiles self) =? length self)%nat ;;;
  assert (forallb (fun rp => (List.length (fst rp) =? List.length (snd rp))%nat)
                  (combine (rows self) (profiles self))) ;;;
  check_widths (radius_dtype self)
               (zip3 (profiles self) (radius self) (oversample self)) ;;;
  assert (List.length (norm self) =? length self)%nat.

(** [__len__]: the number of fibers. *)
Definition __len__ (self : t) : nat := length self.

(** [__str__]: ["%s{%d profiles}" % (self.__class__.__name__, self.length)],
    for an instance of this class. *)
Definition __str__ (self : t) : string :=
  str (chars "PfsFiberProfiles" ++ chars "{"
       ++ format_int dec_digits false 0 (Z.of_nat (length self)) ++ chars " profiles}").

(** The constructor, for integer arrays of the dtype [dtype].  [numpy.array]
    keeps the lists of numbers as they are, and the dtype of an array it is
    given; [numpy.ma.masked_array] makes a masked array of the profiles of
    each fiber, which are held as the rows an iteration over the array
    yields. *)
Definition construct (dtype : int_dtype) (identity : CalibIdentity.t)
           (fiberId radius : list Z) (oversample : list float) (rows : list (list float))
           (profiles : list (list profile_row)) (norm : list (list float))
           (metadata : dict pod) : result t :=
  profiles <- mapM masked_array_of profiles ;;
  let self := mk identity fiberId radius oversample rows profiles norm metadata
                 (List.length fiberId) dtype in
  validate self ;;;
  Ok self.

(** The constructor on lists of Python numbers: [numpy.array] makes int64
    arrays of the integers. *)
Definition __init__ : CalibIdentity.t -> list Z -> list Z -> list float ->
                      list (list float) -> list (list profile_row) ->
                      list (list float) -> dict pod -> result t :=
  construct int64.

Definition getFilename (identity : CalibIdentity.t) : result string :=
  getDict <- CalibIdentity.getattr identity "getDict" ;;
  d <- CalibIdentity.call0 identity getDict ;;
  py_format filenameFormat d.

(** The [filename] property. *)
Definition filename (self : t) : result string := getFilename (identity self).

Definition parseFilename (path : string) : result CalibIdentity.t :=
  let fileName := basename path in
  matches <- re_search filenameRegex fileName ;;
  match matches with
  | None => Error (RuntimeError ("Unable to parse filename: " ++ fileName)%string)
  | Some m => CalibIdentity.fromDict (groupdict m)
  end.

(** The body of the loop of [_readImpl] for the fiber [ii].  The columns
    [profiles] and [masks] have one array per table row, so [masks[select]] is
    a one-dimensional array of arrays and [masks[select].size] is the number
    of rows selected. *)
Definition read_fiber (fiberId1 fiberId2 : list Z) (rows : list float)
           (profiles : list (list float)) (masks : list (list bool)) (ii : nat)
  : result (list float * list profile_row) :=
  fid <- getitem fiberId1 ii ;;
  let select := map (fun f => f =? fid) fiberId2 in
  fiberRows <- bool_index rows select ;;
  selected <- bool_index profiles select ;;
  data <- np_array selected ;;
  selectedMasks <- bool_index masks select ;;
  prof <- (if (0 <? List.length selectedMasks)%nat
           then mask <- np_array selectedMasks ;; masked_array data (Some mask)
           else masked_array data None) ;;
  Ok (fiberRows, prof).

Definition _readImpl (fits : HDUList) (identity : CalibIdentity.t) : result t :=
  let metadata := astropyHeaderToDict (header fits) in
  let hdu := FIBERS fits in
  let fiberId1 := F_fiberId hdu in
  let radius := F_radius hdu in
  let oversample := F_oversample hdu in
  let norm := F_norm hdu in
  let hdu := PROFILES fits in
  let fiberId2 := P_fiberId hdu in
  let rows := P_rows hdu in
  let profiles := P_profiles hdu in
  let masks := P_masks hdu in
  let numFibers := List.length fiberId1 in
  fibers <- mapM (read_fiber fiberId1 fiberId2 rows profiles masks) (seq 0 numFibers) ;;
  let fiberRows := map fst fibers in
  let fiberProfiles := map snd fibers in
  construct int32 identity fiberId1 radius oversample fiberRows fiberProfiles norm metadata.

(** The state of the loop of [_writeImpl]. *)
Record write_state : Type := mkState {
  w_fiberId : list Z;
  w_rows : list float;
  w_profiles : list (list float);
  w_masks : list (list bool);
  w_start : nat
}.

(** [for pp in prof]: the data and the mask of a masked row, the row and an
    empty mask for a plain one.  The mask of a masked row without a mask
    array is the scalar [False], which the [PL()] column takes as an array of
    that one element. *)
Fixpoint append_rows (prof : list profile_row) (profiles : list (list float))
         (masks : list (list bool)) : list (list float) * list (list bool) :=
  match prof with
  | [] => (profiles, masks)
  | MaskedRow data mask :: prof' => append_rows prof' (profiles ++ [data]) (masks ++ [mask])
  | NomaskRow data :: prof' => append_rows prof' (profiles ++ [data]) (masks ++ [[false]])
  | PlainRow data :: prof' => append_rows prof' (profiles ++ [data]) (masks ++ [[]])
  end.

(** The body of the loop of [_writeImpl] for the fiber [ii]. *)
Definition write_fiber (self : t) (st : write_state) (ii : nat) : result write_state :=
  rr <- getitem (rows self) ii ;;
  let num := List.length rr in
  prof <- getitem (profiles self) ii ;;
  fid <- getitem (fiberId self) ii ;;
  let start := w_start st in
  let fiberId := slice_fill (w_fiberId st) start (start + num) fid in
  rows <- slice_assign (w_rows st) start (start + num) rr ;;
  let pm := append_rows prof (w_profiles st) (w_masks st) in
  Ok (mkState fiberId rows (fst pm) (snd pm) (start + num)).

Fixpoint write_loop (self : t) (st : write_state) (range : list nat) : result write_state :=
  match range with
  | [] => Ok st
  | ii :: range' =>
      st' <- write_fiber self st ii ;;
      write_loop self st' range'
  end.

(** The columns are cast to their formats when the tables are made: [J] to
    int32, [E] and [PE()] to float32. *)
Definition _writeImpl (self : t) : result HDUList :=
  let header := astropyHeaderFromDict (metadata self) in
  let header := dict_set header "OBSTYPE" (PStr "fiberProfiles") in
  let fibersHdu :=
    mkFibers (map wrap32 (fiberId self)) (map wrap32 (radius self))
             (map float32 (oversample self)) (map (map float32) (norm self)) in
  let numProfiles := list_sum (map (@List.length float) (rows self)) in
  let st0 := mkState (repeat 0 numProfiles) (repeat 0%float numProfiles) [] [] 0 in
  st <- write_loop self st0 (seq 0 (length self)) ;;
  let profilesHdu :=
    mkProfiles (map wrap32 (w_fiberId st)) (map float32 (w_rows st))
               (map (map float32) (w_profiles st)) (w_masks st) in
  Ok (mkHDUList (PrimaryHDU header) fibersHdu profilesHdu).

(** The files of a directory tree, by path. *)
Definition filesystem : Type := dict HDUList.

(** [astropy.io.fits.open(filename)]. *)
Definition fits_open (fs : filesystem) (filename : string) : result HDUList :=
  match dict_get fs filename with
  | Ok fits => Ok fits
  | Error _ => Error (FileNotFoundError filename)
  end.

Definition readFits (fs : filesystem) (filename : string) : result t :=
  identity <- parseFilename filename ;;
  fits <- fits_open fs filename ;;
  _readImpl fits identity.

Definition read (fs : filesystem) (identity : CalibIdentity.t) (dirName : string)
  : result t :=
  name <- getFilename identity ;;
  let filename := path_join dirName name in
  fits <- fits_open fs filename ;;
  _readImpl fits identity.

Definition writeFits (fs : filesystem) (self : t) (filename : string)
  : result filesystem :=
  fits <- _writeImpl self ;;
  Ok (dict_set fs filename fits).

Definition write (fs : filesystem) (self : t) (dirName : string) : result filesystem :=
  name <- filename self ;;
  let filename := path_join dirName name in
  writeFits fs self filename.

End PfsFiberProfiles.


(** ** Notions used in the statements *)





Definition set_fiberId (self : PfsFiberProfiles.t) (fiberId : list Z)
  : PfsFiberProfiles.t :=
  PfsFiberProfiles.mk
    (PfsFiberProfiles.identity self) fiberId
    (PfsFiberProfiles.radius self) (PfsFiberProfiles.oversample self)
    (PfsFiberProfiles.rows self) (PfsFiberProfiles.profiles self)
    (PfsFiberProfiles.norm self) (PfsFiberProfiles.metadata self)
    (List.length fiberId) (PfsFiberProfiles.radius_dtype self).

(** [fiberId2 == fid], the selection [_readImpl] computes for a fiber. *)
Definition select_fiber (fiberId2 : list Z) (fid : Z) : list bool :=
  map (fun f => f =? fid) fiberId2.





(** ** Sample data *)

Definition calib0 : CalibIdentity.t := CalibIdentity.mk "2024-01-02" 1 "b" 42.

Definition row13 : list float := repeat 0.5%float 13.

Definition unmasked13 : profile_row := MaskedRow row13 (repeat false 13).

Definition masked13 : profile_row := MaskedRow row13 (true :: repeat false 12).

(** The cards of the primary header of a fiber profiles file without other
    metadata. *)
Definition cards0 : dict pod :=
  [("SIMPLE", PBool true); ("BITPIX", PInt 8); ("NAXIS", PInt 0); ("EXTEND", PBool true);
   ("OBSTYPE", PStr "fiberProfiles")].

(** Two fibers, the second without profiles. *)
Definition sample : PfsFiberProfiles.t :=
  PfsFiberProfiles.mk calib0 [10; 20] [1; 1] [3%float; 3%float]
    [[100%float; 200%float]; []] [[unmasked13; masked13]; []] [[]; []]
    [("OBSTYPE", PStr "fiberProfiles")] 2 int64.

(** Two fibers with one and the same identifier. *)
Definition twins : PfsFiberProfiles.t :=
  PfsFiberProfiles.mk calib0 [10; 10] [1; 1] [3%float; 3%float]
    [[100%float]; []] [[unmasked13]; []] [[]; []]
    [("OBSTYPE", PStr "fiberProfiles")] 2 int64.

(** The file [_writeImpl] makes of [sample]. *)
Definition sample_file : HDUList :=
  mkHDUList cards0
    (mkFibers [10; 20] [1; 1] [3%float; 3%float] [[]; []])
    (mkProfiles [10; 10] [100%float; 200%float] [row13; row13]
                [repeat false 13; true :: repeat false 12]).

(** What [_readImpl] makes of that file: the cards of the primary header are
    the metadata, and the radius is an int32 array. *)
Definition sample_read : PfsFiberProfiles.t :=
  PfsFiberProfiles.mk calib0 [10; 20] [1; 1] [3%float; 3%float]
    [[100%float; 200%float]; []] [[unmasked13; masked13]; []] [[]; []]
    cards0 2 int32.

(** One fiber with one profile that carries no mask: a plain array, put in
    the place of the masked array the constructor makes. *)
Definition plain_sample : PfsFiberProfiles.t :=
  PfsFiberProfiles.mk calib0 [10] [1] [3%float] [[100%float]] [[PlainRow row13]] [[]]
    [("OBSTYPE", PStr "fiberProfiles")] 1 int64.

(** A table whose only row has an empty mask. *)
Definition unmasked_file : HDUList :=
  mkHDUList cards0
    (mkFibers [10] [1] [3%float] [[]])
    (mkProfiles [10] [100%float] [row13] [[]]).

Definition object0 : dict pyval :=
  [("catId", VInt 7); ("tract", VInt 321); ("patch", VStr "5,7");
   ("objId", VInt 3735928559); ("numExp", VInt 3); ("expHash", VInt 3405705229)].

(** What a successful validation establishes. *)
Record valid (self : PfsFiberProfiles.t) : Prop := mkValid {
  v_fiberId : List.length (PfsFiberProfiles.fiberId self) = PfsFiberProfiles.length self;
  v_radius : List.length (PfsFiberProfiles.radius self) = PfsFiberProfiles.length self;
  v_oversample :
    List.length (PfsFiberProfiles.oversample self) = PfsFiberProfiles.length self;
  v_rows : List.length (PfsFiberProfiles.rows self) = PfsFiberProfiles.length self;
  v_profiles : List.length (PfsFiberProfiles.profiles self) = PfsFiberProfiles.length self;
  v_counts :
    forallb (fun rp => (List.length (fst rp) =? List.length (snd rp))%nat)
            (combine (PfsFiberProfiles.rows self) (PfsFiberProfiles.profiles self)) = true;
  v_widths :
    PfsFiberProfiles.check_widths (PfsFiberProfiles.radius_dtype self)
      (PfsFiberProfiles.zip3 (PfsFiberProfiles.profiles self)
         (PfsFiberProfiles.radius self) (PfsFiberProfiles.oversample self)) = Ok tt;
  v_norm : List.length (PfsFiberProfiles.norm self) = PfsFiberProfiles.length self
}.


Definition is_ok {A : Type} (r : result A) : bool :=
  match r with
  | Ok _ => true
  | Error _ => false
  end.






(** ** Further notions used in the statements *)


(** The elements of an identity that a [dict] lacks, in the order of
    [CalibIdentity.elements]. *)
Definition missing_elements (identity : dict pyval) : list string :=
  filter (fun key => negb (is_ok (dict_get identity key))) CalibIdentity.elements.

(** No slash occurs in the string. *)
Definition no_slash (s : string) : bool :=
  forallb (fun c => negb (Ascii.eqb c "/")) (chars s).

Definition set_geometry (self : PfsFiberProfiles.t) (radius : list Z)
           (oversample : list float) : PfsFiberProfiles.t :=
  PfsFiberProfiles.mk
    (PfsFiberProfiles.identity self) (PfsFiberProfiles.fiberId self)
    radius oversample (PfsFiberProfiles.rows self) (PfsFiberProfiles.profiles self)
    (PfsFiberProfiles.norm self) (PfsFiberProfiles.metadata self)
    (PfsFiberProfiles.length self) (PfsFiberProfiles.radius_dtype self).

(** The fiber identifier [f] is one of [fiberId1]. *)
Definition known (fiberId1 : list Z) (f : Z) : bool := existsb (Z.eqb f) fiberId1.

(** The file without the rows of [PROFILES] whose [fiberId] is in no row of
    [FIBERS]. *)
Definition drop_orphans (fits : HDUList) : HDUList :=
  let t := PROFILES fits in
  let keep := map (known (F_fiberId (FIBERS fits))) (P_fiberId t) in
  mkHDUList (header fits) (FIBERS fits)
            (mkProfiles (compress (P_fiberId t) keep) (compress (P_rows t) keep)
                        (compress (P_profiles t) keep) (compress (P_masks t) keep)).

(** The four columns of the table have one length. *)
Definition table_wf (t : ProfilesTable) : Prop :=
  List.length (P_rows t) = List.length (P_fiberId t)
  /\ List.length (P_profiles t) = List.length (P_fiberId t)
  /\ List.length (P_masks t) = List.length (P_fiberId t).

(** A character that may stand in a file name and that [\S] matches: neither
    white space nor a slash. *)
Definition name_char (c : ascii) : bool :=
  negb (is_space c) && negb (Ascii.eqb c "/").

(** An identity that fits the fields of the file name: a date of ten name
    characters, an arm of one, a visit of at most six digits and a
    spectrograph of one digit. *)
Definition fits_filename (identity : CalibIdentity.t) : bool :=
  (List.length (chars (CalibIdentity.obsDate identity)) =? 10)%nat
  && forallb name_char (chars (CalibIdentity.obsDate identity))
  && (List.length (chars (CalibIdentity.arm identity)) =? 1)%nat
  && forallb name_char (chars (CalibIdentity.arm identity))
  && (0 <=? CalibIdentity.visit0 identity) && (CalibIdentity.visit0 identity <? 10 ^ 6)
  && (0 <=? CalibIdentity.spectrograph identity)
  && (CalibIdentity.spectrograph identity <? 10).

(** The instructions [filenameRegex] of PfsFiberProfiles compiles to. *)
Definition fiberProfiles_prog : list instr :=
  Eval vm_compute in
    match re_compile PfsFiberProfiles.filenameRegex with
    | Ok prog => prog
    | Error _ => []
    end.

(** A file name of the canonical shape, from the text of its fields. *)
Definition canonical_name (date visit : string) (arm spectrograph : ascii) : string :=
  ("pfsFiberProfiles-" ++ date ++ "-" ++ visit ++ "-"
   ++ String arm (String spectrograph ".fits"))%string.





(** ** Values that a file holds without loss *)








(** ** Further sample data *)







(** Each mask has the length of its row of data. *)
Definition masks_fit (data : list (list float)) (masks : list (list bool)) : Prop :=
  Forall2 (fun d m => List.length m = List.length d) data masks.



(** * Properties *)

(** ** Filenames of PfsFiberProfiles *)

Lemma getattr_getDict (identity : CalibIdentity.t) :
  CalibIdentity.getattr identity "getDict"
  = Error (AttributeError "'CalibIdentity' object has no attribute 'getDict'").
Proof. reflexivity. Qed.

(** C3. For every CalibIdentity, [getFilename] raises an AttributeError: it
    calls [getDict], which CalibIdentity does not define.  The [filename]
    property, [read] and [write] raise it with it. *)
Theorem getFilename_raises_AttributeError :
  forall (identity : CalibIdentity.t) (self : PfsFiberProfiles.t)
         (fs : PfsFiberProfiles.filesystem) (dirName : string),
    let e := AttributeError "'CalibIdentity' object has no attribute 'getDict'" in
    PfsFiberProfiles.getFilename identity = Error e
    /\ PfsFiberProfiles.filename self = Error e
    /\ PfsFiberProfiles.read fs identity dirName = Error e
    /\ PfsFiberProfiles.write fs self dirName = Error e.
Proof.
  intros identity self fs dirName e.
  assert (G : forall i, PfsFiberProfiles.getFilename i = Error e).
  { intro i. unfold PfsFiberProfiles.getFilename.
    rewrite getattr_getDict. reflexivity. }
  split; [| split; [| split]].
  - apply G.
  - unfold PfsFiberProfiles.filename. apply G.
  - unfold PfsFiberProfiles.read. rewrite G. reflexivity.
  - unfold PfsFiberProfiles.write, PfsFiberProfiles.filename. rewrite G. reflexivity.
Qed.

(** C2, at a CalibIdentity: the filename cannot be rendered, so parsing what
    [getFilename] returns does not give the identity back. *)
Theorem calib_roundtrip_raises :
  (name <- PfsFiberProfiles.getFilename calib0 ;; PfsFiberProfiles.parseFilename name)
  = Error (AttributeError "'CalibIdentity' object has no attribute 'getDict'").
Proof. reflexivity. Qed.

(** The canonical name of [calib0] does parse to it. *)
Lemma calib0_parses :
  PfsFiberProfiles.parseFilename "pfsFiberProfiles-2024-01-02-000042-b1.fits" = Ok calib0.
Proof. vm_compute. reflexivity. Qed.

(** C10 (amended). A path whose basename the pattern does not match makes
    [parseFilename] raise a RuntimeError whose message names the basename;
    an identity is returned only for a basename that matches. *)
Theorem parseFilename_no_match :
  forall path : string,
    re_search PfsFiberProfiles.filenameRegex (basename path) = Ok None ->
    PfsFiberProfiles.parseFilename path
    = Error (RuntimeError ("Unable to parse filename: " ++ basename path)%string)
    /\ forall identity, PfsFiberProfiles.parseFilename path <> Ok identity.
Proof.
  intros path H. unfold PfsFiberProfiles.parseFilename. rewrite H. cbn [bind].
  split; [reflexivity | discriminate].
Qed.

Lemma parseFilename_no_match_witness :
  re_search PfsFiberProfiles.filenameRegex (basename "/data/pfsArm-xxxx.fits") = Ok None
  /\ PfsFiberProfiles.parseFilename "/data/pfsArm-xxxx.fits"
     = Error (RuntimeError "Unable to parse filename: pfsArm-xxxx.fits").
Proof.
  split; [vm_compute; reflexivity |].
  apply (parseFilename_no_match "/data/pfsArm-xxxx.fits"). vm_compute. reflexivity.
Defined.

(** C10, as stated, fails: what [parseFilename] raises for the basename of
    the claim is a RuntimeError, the exception the source names, and no
    ParseError. *)
Lemma parseFilename_raises_RuntimeError :
  PfsFiberProfiles.parseFilename "pfsArm-xxxx.fits"
  = Error (RuntimeError "Unable to parse filename: pfsArm-xxxx.fits")
  /\ PfsFiberProfiles.parseFilename "pfsArm-xxxx.fits" <> Error ParseError.
Proof. split; [vm_compute; reflexivity | vm_compute; discriminate]. Qed.

(** For the reduction products, on the [parseFilename] modelled from the
    spec, the failure is the ParseError of the spec. *)
Lemma product_parseFilename_no_match (C : ProductClass) (path : string) :
  re_search (filenameRegex C) (basename path) = Ok None ->
  product_parseFilename C path = Error ParseError.
Proof. intro H. unfold product_parseFilename. rewrite H. reflexivity. Qed.

Lemma pfsArm_unparseable : product_parseFilename PfsArm "pfsArm-xxxx.fits" = Error ParseError.
Proof. vm_compute. reflexivity. Qed.

(** C8, at PfsFiberProfiles: the pattern is not anchored; a basename with text
    before the canonical name parses. *)
Theorem fiberProfiles_regex_unanchored :
  PfsFiberProfiles.parseFilename "XXpfsFiberProfiles-2024-01-02-000042-b1.fits"
  = Ok calib0.
Proof. vm_compute. reflexivity. Qed.

(** C9, at the identity of the spec's example: the name parses to the
    identity, and the identity renders without any [0x]. *)
Theorem pfsObject_render_no_0x :
  product_parseFilename PfsObject
    "pfsObject-007-00321-5,7-0x00000000deadbeef-003-0xcafef00d.fits" = Ok object0
  /\ product_getFilename PfsObject object0
     = Ok "pfsObject-007-00321-5,7-00000000deadbeef-003-cafef00d.fits"
  /\ product_parseFilename PfsObject
       "pfsObject-007-00321-5,7-00000000deadbeef-003-cafef00d.fits" = Error ParseError.
Proof. repeat split; vm_compute; reflexivity. Qed.

(** ** Anchoring and trailing suffixes *)

(** A program that starts with [^] matches at the start of the string only. *)
Lemma bol_fails_later (prog : list instr) (whole s : list ascii) (pos : nat) :
  re_scan (IBol :: prog) whole s (S pos) = None.
Proof.
  revert pos. induction s as [|c s IH]; intro pos; cbn; [reflexivity | apply IH].
Qed.

Lemma bol_anchored (prog : list instr) (whole s : list ascii) (m : Match) :
  re_scan (IBol :: prog) whole s 0 = Some m -> m_start m = 0%nat.
Proof.
  destruct s as [|c s]; cbn.
  - destruct (re_run prog [] 0 0 [] []) as [[e caps]|]; [| discriminate].
    intro H. now injection H as <-.
  - destruct (re_run prog (c :: s) 0 0 [] []) as [[e caps]|].
    + intro H. now injection H as <-.
    + now rewrite bol_fails_later.
Qed.

(** The patterns of the five reduction products are anchored at the start. *)
Lemma drp_regex_anchored (C : ProductClass) (s : string) (m : Match) :
  In C drp_classes ->
  re_search (filenameRegex C) s = Ok (Some m) -> m_start m = 0%nat.
Proof.
  intros HC H. unfold re_search in H.
  assert (P : exists prog, re_compile (filenameRegex C) = Ok (IBol :: prog)).
  { cbn in HC. repeat (destruct HC as [<- | HC]; [eexists; vm_compute; reflexivity |]).
    contradiction. }
  destruct P as [prog P]. rewrite P in H. cbn [bind] in H.
  injection H as H. eapply bol_anchored; eauto.
Qed.

(** They accept a compression suffix after [.fits], and so does the pattern
    of PfsFiberProfiles. *)
Lemma suffix_accepted :
  product_parseFilename PfsArm "pfsArm-001234-r2.fits.gz"
  = Ok [("expId", VInt 1234); ("arm", VStr "r"); ("spectrograph", VInt 2)]
  /\ product_parseFilename PfsMerged "pfsMerged-001234.fits.fz" = Ok [("expId", VInt 1234)]
  /\ product_parseFilename PfsObject
       "pfsObject-007-00321-5,7-0x00000000deadbeef-003-0xcafef00d.fits.gz" = Ok object0
  /\ PfsFiberProfiles.parseFilename "pfsFiberProfiles-2024-01-02-000042-b1.fits.gz"
     = Ok calib0.
Proof. repeat split; vm_compute; reflexivity. Qed.

(** The name rendered for a reference spectrum carries no [0x], which the
    pattern of PfsReference asks for: it does not parse. *)
Lemma pfsReference_roundtrip_fails :
  let identity := [("catId", VInt 7); ("tract", VInt 321); ("patch", VStr "5,7");
                   ("objId", VInt 3735928559)] in
  product_getFilename PfsReference identity
  = Ok "pfsReference-007-00321-5,7-00000000deadbeef.fits"
  /\ (name <- product_getFilename PfsReference identity ;;
      product_parseFilename PfsReference name) = Error ParseError.
Proof. split; vm_compute; reflexivity. Qed.

(** The names of PfsArm do parse back. *)
Lemma pfsArm_roundtrip_example :
  let identity := [("expId", VInt 1234); ("arm", VStr "r"); ("spectrograph", VInt 2)] in
  (name <- product_getFilename PfsArm identity ;; product_parseFilename PfsArm name)
  = Ok identity.
Proof. vm_compute. reflexivity. Qed.

(** ** Validation *)

Lemma assert_inv (c : bool) (k : result unit) :
  (assert c ;;; k) = Ok tt -> c = true /\ k = Ok tt.
Proof. destruct c; cbn; [auto | discriminate]. Qed.


Lemma validate_valid (self : PfsFiberProfiles.t) :
  PfsFiberProfiles.validate self = Ok tt <-> valid self.
Proof.
  unfold PfsFiberProfiles.validate. split.
  - intro H.
    repeat (apply assert_inv in H; destruct H as [?%Nat.eqb_eq H] || destruct H as [? H]).
    constructor; auto.
    + destruct (PfsFiberProfiles.check_widths _) as [[]|]; cbn in H;
        [reflexivity | discriminate].
    + destruct (PfsFiberProfiles.check_widths _) as [[]|]; cbn in H; [| discriminate].
      unfold assert in H. destruct (_ =? _)%nat eqn:E; [| discriminate].
      now apply Nat.eqb_eq.
  - intros [H1 H2 H3 H4 H5 H6 H7 H8].
    rewrite H1, H2, H3, H4, H5, H6, H7, H8, !Nat.eqb_refl. reflexivity.
Qed.







(** *** The conversions of the constructor *)




Lemma masked_array_of_error (pp : list profile_row) (e : exn) :
  masked_array_of pp = Error e -> e = ValueError.
Proof.
  unfold masked_array_of. destruct (rectangular _); [| congruence].
  destruct (has_mask_array pp); [discriminate |]. destruct (existsb _ pp); discriminate.
Qed.



Lemma converted_error (profiles : list (list profile_row)) (e : exn) :
  mapM masked_array_of profiles = Error e -> e = ValueError.
Proof.
  induction profiles as [|pp profiles IH]; cbn; [discriminate |].
  destruct (masked_array_of pp) as [pp'|e'] eqn:E; cbn.
  - destruct (mapM masked_array_of profiles) as [l|e'']; cbn; [discriminate |].
    intros [= <-]. now apply IH.
  - intros [= <-]. eapply masked_array_of_error; eauto.
Qed.







(** C4, as stated, fails: two fibers with the identifier 10 are accepted. *)
Lemma duplicate_fiberId_accepted :
  PfsFiberProfiles.__init__ calib0 [10; 10] [1; 1] [3%float; 3%float]
    [[100%float]; []] [[unmasked13]; []] [[]; []] [("OBSTYPE", PStr "fiberProfiles")]
  = Ok twins.
Proof. vm_compute. reflexivity. Qed.

(** C4 (amended). Validation reads the length of [fiberId] and none of its
    values: when a construction succeeds, it succeeds as well with any other
    identifiers in the same number, repeated or not. *)
Theorem validation_ignores_fiberId_values :
  forall identity fiberId fiberId' radius oversample rows profiles norm metadata self,
    List.length fiberId' = List.length fiberId ->
    PfsFiberProfiles.__init__ identity fiberId radius oversample rows profiles norm metadata
    = Ok self ->
    PfsFiberProfiles.__init__ identity fiberId' radius oversample rows profiles norm metadata
    = Ok (set_fiberId self fiberId').
Proof.
  intros identity fiberId fiberId' radius oversample rows profiles norm metadata self L.
  unfold PfsFiberProfiles.__init__, PfsFiberProfiles.construct.
  destruct (mapM masked_array_of profiles) as [profiles'|]; cbn [bind]; [| discriminate].
  unfold PfsFiberProfiles.validate. cbn.
  rewrite L.
  destruct (assert _ ;;; _) as [[]|e]; cbn; [| discriminate].
  intro H. injection H as <-. unfold set_fiberId. cbn. now rewrite L.
Qed.

Lemma validation_ignores_fiberId_values_witness :
  PfsFiberProfiles.__init__ calib0 [10; 10] [1; 1] [3%float; 3%float]
    [[100%float; 200%float]; []] [[unmasked13; masked13]; []] [[]; []]
    [("OBSTYPE", PStr "fiberProfiles")]
  = Ok (set_fiberId sample [10; 10]).
Proof.
  apply (validation_ignores_fiberId_values calib0 [10; 20] [10; 10]).
  - reflexivity.
  - vm_compute. reflexivity.
Defined.

(** ** The writer *)

Section Slices.

Context {A : Type}.







End Slices.




(** ** The reader: selection of a fiber's rows *)

Section Compress.

Context {X : Type}.






End Compress.



Lemma select_fiber_length (a : list Z) (fid : Z) :
  List.length (select_fiber a fid) = List.length a.
Proof. apply length_map. Qed.


(** ** The reader: the masked array of a fiber *)









(** ** The constructor on what the reader makes *)


(** A masked array that has a mask array is kept as it is. *)
Lemma masked_array_of_masked (prof : list profile_row) :
  has_mask_array prof = true -> rectangular (map row_data prof) = true ->
  masked_array_of prof = Ok prof.
Proof. unfold masked_array_of. now intros -> ->. Qed.

Lemma mapM_masked_array_of (profiles : list (list profile_row)) :
  (forall prof, In prof profiles ->
                has_mask_array prof = true /\ rectangular (map row_data prof) = true) ->
  mapM masked_array_of profiles = Ok profiles.
Proof.
  induction profiles as [|prof profiles IH]; intro H; [reflexivity |].
  cbn. destruct (H prof (or_introl eq_refl)) as [H1 H2].
  rewrite (masked_array_of_masked prof H1 H2). cbn.
  rewrite IH; [reflexivity |]. intros; apply H; now right.
Qed.

(** ** The casts of the columns *)












(** ** Reading back what was written *)













(** ** The reader on any file *)


Lemma nth_error_seq0 (n i : nat) : (i < n)%nat -> nth_error (seq 0 n) i = Some i.
Proof.
  intro H. rewrite (nth_error_nth' _ 0%nat) by now rewrite length_seq.
  now rewrite seq_nth.
Qed.

Lemma zip_rows_data (data : list (list float)) (m : list (list bool)) :
  (List.length data <= List.length m)%nat -> map row_data (zip_rows data m) = data.
Proof.
  revert m. induction data as [|d data IH]; intros m L; [reflexivity |].
  destruct m as [|b m]; cbn in L; [lia |].
  cbn. rewrite IH by lia. reflexivity.
Qed.

Lemma reshape_like_length {A B : Type} (data : list (list A)) (flat : list B) :
  List.length (reshape_like data flat) = List.length data.
Proof.
  revert flat. induction data as [|d data IH]; intro flat; cbn; [reflexivity |].
  now rewrite IH.
Qed.

Lemma map_row_data_masked (data : list (list float)) (f : list float -> list bool) :
  map row_data (map (fun d => MaskedRow d (f d)) data) = data.
Proof. rewrite map_map. cbn. apply map_id. Qed.

(** The rows of a masked array carry the data it was made from. *)
Lemma masked_array_data (data : list (list float)) (mask : option (list (list bool)))
      (prof : list profile_row) :
  masked_array data mask = Ok prof -> map row_data prof = data.
Proof.
  unfold masked_array. destruct mask as [m|].
  - destruct (shape_eqb (shape m) (shape data)) eqn:S.
    + intro H. injection H as <-. apply zip_rows_data.
      destruct data as [|d data]; cbn; [lia |].
      destruct m as [|b m]; cbn in S; [discriminate |].
      apply andb_prop in S. destruct S as [S _]. apply Nat.eqb_eq in S.
      cbn in S |- *. lia.
    + destruct (List.concat m) as [|b [|b' flat]] eqn:F.
      * destruct (size m =? size data)%nat; [| discriminate].
        intro H. injection H as <-. apply zip_rows_data.
        now rewrite reshape_like_length.
      * intro H. injection H as <-.
        apply (map_row_data_masked data (fun d => repeat b (List.length d))).
      * destruct (size m =? size data)%nat; [| discriminate].
        intro H. injection H as <-. apply zip_rows_data.
        now rewrite reshape_like_length.
  - intro H. injection H as <-.
    apply (map_row_data_masked data (fun d => repeat false (List.length d))).
Qed.

Lemma zip_rows_has_mask (data : list (list float)) (m : list (list bool)) :
  has_mask_array (zip_rows data m) = true.
Proof.
  revert m. induction data as [|d data IH]; intros [|b m]; cbn; try reflexivity.
  apply IH.
Qed.

(** The rows of a masked array made with a mask are masked rows. *)
Lemma masked_array_has_mask (data : list (list float)) (mask : option (list (list bool)))
      (prof : list profile_row) :
  masked_array data mask = Ok prof -> has_mask_array prof = true.
Proof.
  assert (R : forall f : list float -> list bool,
             has_mask_array (map (fun d => MaskedRow d (f d)) data) = true).
  { intro f. unfold has_mask_array. rewrite forallb_forall. intros pp HI.
    apply in_map_iff in HI. now destruct HI as (d & <- & _). }
  unfold masked_array. destruct mask as [m|].
  - destruct (shape_eqb (shape m) (shape data)).
    + intros [= <-]. apply zip_rows_has_mask.
    + destruct (List.concat m) as [|b [|b' flat]].
      * destruct (size m =? size data)%nat; [| discriminate].
        intros [= <-]. apply zip_rows_has_mask.
      * intros [= <-]. apply R.
      * destruct (size m =? size data)%nat; [| discriminate].
        intros [= <-]. apply zip_rows_has_mask.
  - intros [= <-]. apply R.
Qed.

Lemma masks_fit_shape (data : list (list float)) (masks : list (list bool)) :
  masks_fit data masks -> shape_eqb (shape masks) (shape data) = true.
Proof.
  intro F. destruct F as [|d m data masks H F]; [reflexivity |].
  cbn. rewrite (Forall2_length F), H, !Nat.eqb_refl. reflexivity.
Qed.

(** What the loop body of the reader returns, when it returns: the rows of
    the table whose [fiberId] is that of the fiber, in their stored order,
    as masked rows; the masks are those of the table when each has the length
    of its row of data. *)
Lemma read_fiber_selects (fiberId1 fiberId2 : list Z) (rows : list float)
      (profiles : list (list float)) (masks : list (list bool)) (ii : nat)
      (rr : list float) (prof : list profile_row) :
  PfsFiberProfiles.read_fiber fiberId1 fiberId2 rows profiles masks ii = Ok (rr, prof) ->
  exists fid,
    nth_error fiberId1 ii = Some fid
    /\ rr = compress rows (select_fiber fiberId2 fid)
    /\ map row_data prof = compress profiles (select_fiber fiberId2 fid)
    /\ rectangular (compress profiles (select_fiber fiberId2 fid)) = true
    /\ has_mask_array prof = true
    /\ (masks_fit (compress profiles (select_fiber fiberId2 fid))
                  (compress masks (select_fiber fiberId2 fid)) ->
        prof = zip_rows (compress profiles (select_fiber fiberId2 fid))
                        (compress masks (select_fiber fiberId2 fid))).
Proof.
  unfold PfsFiberProfiles.read_fiber, getitem.
  destruct (nth_error fiberId1 ii) as [fid|]; cbn [bind]; [| discriminate].
  change (map (fun f => f =? fid) fiberId2) with (select_fiber fiberId2 fid).
  intro H. exists fid. split; [reflexivity |]. revert H.
  unfold bool_index, np_array.
  destruct (List.length rows =? _)%nat; cbn [bind]; [| discriminate].
  destruct (List.length profiles =? _)%nat; cbn [bind]; [| discriminate].
  destruct (rectangular (compress profiles _)) eqn:RD; cbn [bind]; [| discriminate].
  destruct (List.length masks =? _)%nat; cbn [bind]; [| discriminate].
  remember (compress profiles (select_fiber fiberId2 fid)) as data eqn:Edata.
  remember (compress masks (select_fiber fiberId2 fid)) as sel eqn:Esel.
  clear Edata Esel. intro H.
  destruct (0 <? List.length sel)%nat eqn:Z0.
  - destruct (rectangular sel); cbn [bind] in H; [| discriminate].
    destruct (masked_array _ _) as [pr|e] eqn:M; cbn [bind] in H; [| discriminate].
    injection H as <- <-. split; [reflexivity |].
    split; [eapply masked_array_data; eauto |]. split; [reflexivity |].
    split; [eapply masked_array_has_mask; eauto |].
    intro F. unfold masked_array in M. rewrite (masks_fit_shape data sel F) in M.
    now injection M as <-.
  - destruct (masked_array _ _) as [pr|e] eqn:M; cbn [bind] in H; [| discriminate].
    injection H as <- <-. split; [reflexivity |].
    split; [eapply masked_array_data; eauto |]. split; [reflexivity |].
    split; [eapply masked_array_has_mask; eauto |].
    intro F. apply Nat.ltb_ge in Z0.
    destruct sel as [|m sel]; [| cbn in Z0; lia].
    inversion F as [E1 E2|]. subst data. cbn in M.
    injection M as <-. reflexivity.
Qed.

Lemma mapM_In {A B : Type} (f : A -> result B) (l : list A) (r : list B) :
  mapM f l = Ok r -> forall b, In b r -> exists a, In a l /\ f a = Ok b.
Proof.
  revert r. induction l as [|a0 l IH]; intros r H b Hb; cbn in H.
  - injection H as <-. contradiction.
  - destruct (f a0) as [b0|] eqn:F; cbn in H; [| discriminate].
    destruct (mapM f l) as [bs|] eqn:M; cbn in H; [| discriminate].
    injection H as <-. destruct Hb as [<- | Hb].
    + exists a0. split; [now left | exact F].
    + destruct (IH bs eq_refl b Hb) as (a & Ha & Fa). exists a. split; [now right | exact Fa].
Qed.

(** The constructor keeps the masked arrays the reader makes as they are. *)
Lemma read_fibers_converted (fiberId1 fiberId2 : list Z) (rows : list float)
      (profiles : list (list float)) (masks : list (list bool)) (range : list nat)
      (fibers : list (list float * list profile_row)) :
  mapM (PfsFiberProfiles.read_fiber fiberId1 fiberId2 rows profiles masks) range
  = Ok fibers ->
  mapM masked_array_of (map snd fibers) = Ok (map snd fibers).
Proof.
  intro M. apply mapM_masked_array_of. intros prof HI.
  apply in_map_iff in HI. destruct HI as ([rr prof'] & E & HI). cbn in E. subst prof'.
  destruct (mapM_In _ _ _ M _ HI) as (ii & _ & F).
  apply read_fiber_selects in F. destruct F as (fid & _ & _ & D & R & HM & _).
  split; [exact HM | now rewrite D].
Qed.







Lemma sample_written : PfsFiberProfiles._writeImpl sample = Ok sample_file.
Proof. vm_compute. reflexivity. Qed.



(** ** Rows without a mask *)

(** On write, a row that is no masked array is stored with an empty mask. *)
Lemma plain_row_empty_mask (data : list float) (prof : list profile_row)
      (profiles : list (list float)) (masks : list (list bool)) :
  PfsFiberProfiles.append_rows (PlainRow data :: prof) profiles masks
  = PfsFiberProfiles.append_rows prof (profiles ++ [data]) (masks ++ [[]]).
Proof. reflexivity. Qed.

(** C7, at a file whose only row has an empty mask: [plain_sample] is
    accepted and written to that file, and reading the file raises a
    MaskError; the row is not read as an unmasked row. *)
Theorem empty_mask_row_raises :
  PfsFiberProfiles.validate plain_sample = Ok tt
  /\ PfsFiberProfiles._writeImpl plain_sample = Ok unmasked_file
  /\ PfsFiberProfiles._readImpl unmasked_file calib0 = Error MaskError.
Proof. repeat split; vm_compute; reflexivity. Qed.

(** ** CalibIdentity *)

(** X1. [fromDict] undoes [toDict]. *)
Theorem fromDict_toDict :
  forall identity : CalibIdentity.t,
    CalibIdentity.fromDict (CalibIdentity.toDict identity) = Ok identity.
Proof. intros [obsDate spectrograph arm visit0]. reflexivity. Qed.

Lemma dict_get_error {V : Type} (d : dict V) (key : string) (e : exn) :
  dict_get d key = Error e -> e = KeyError key.
Proof.
  induction d as [|[k v] d IH]; cbn.
  - intro H. now injection H as <-.
  - destruct (String.eqb k key); [discriminate | exact IH].
Qed.

(** X2. When the [dict] lacks some of the four elements, [fromDict] raises a
    KeyError that names the first one it lacks, in the order [obsDate],
    [spectrograph], [arm], [visit0]. *)
Theorem fromDict_missing_element :
  forall (identity : dict pyval) (key : string) (others : list string),
    missing_elements identity = key :: others ->
    CalibIdentity.fromDict identity = Error (KeyError key).
Proof.
  intros identity key others. unfold missing_elements, CalibIdentity.fromDict.
  cbn [filter CalibIdentity.elements].
  destruct (dict_get identity "obsDate") as [o|e1] eqn:E1;
    [| apply dict_get_error in E1; subst e1; cbn; intro H; now injection H as <- _].
  destruct (dict_get identity "spectrograph") as [s|e2] eqn:E2;
    [| apply dict_get_error in E2; subst e2; cbn; intro H; now injection H as <- _].
  destruct (dict_get identity "arm") as [a|e3] eqn:E3;
    [| apply dict_get_error in E3; subst e3; cbn; intro H; now injection H as <- _].
  destruct (dict_get identity "visit0") as [v|e4] eqn:E4;
    [| apply dict_get_error in E4; subst e4; cbn; intro H; now injection H as <- _].
  cbn. discriminate.
Qed.

Lemma fromDict_missing_element_witness :
  CalibIdentity.fromDict [("obsDate", VStr "2024-01-02"); ("visit0", VInt 42)]
  = Error (KeyError "spectrograph").
Proof.
  apply (fromDict_missing_element _ "spectrograph" ["arm"]). reflexivity.
Defined.

(** [int(str(n))] is [n] for a natural number [n]. *)
Lemma int_of_str_dec_digits (n : N) : int_of_str (dec_digits n) = Ok (Z.of_N n).
Proof.
  unfold dec_digits.
  assert (NN : N.to_uint n <> Decimal.Nil).
  { destruct n; [discriminate | apply Unsigned.to_uint_nonnil]. }
  assert (U : DecimalString.NilEmpty.uint_of_string
                (DecimalString.NilEmpty.string_of_uint (N.to_uint n))
              = Some (N.to_uint n)) by apply DecimalString.NilEmpty.usu.
  assert (R : N.of_uint (N.to_uint n) = n) by apply DecimalN.Unsigned.of_to.
  unfold int_of_str, nat_of_digits, chars, DecimalString.NilZero.string_of_uint.
  destruct (N.to_uint n) as [|u|u|u|u|u|u|u|u|u|u]; [contradiction | ..];
    cbn [DecimalString.NilEmpty.string_of_uint list_ascii_of_string];
    cbn [DecimalString.NilEmpty.string_of_uint] in U;
    unfold str; cbn [string_of_list_ascii];
    rewrite string_of_list_ascii_of_string, U, R; reflexivity.
Qed.

(** X3. The constructor converts the spectrograph and the visit given as
    decimal strings: the identity is the one built from the numbers. *)
Theorem init_of_decimal_strings :
  forall (obsDate arm : string) (spectrograph visit0 : N),
    CalibIdentity.__init__ obsDate (VStr (dec_digits spectrograph)) arm
                           (VStr (dec_digits visit0))
    = CalibIdentity.__init__ obsDate (VInt (Z.of_N spectrograph)) arm
                             (VInt (Z.of_N visit0)).
Proof.
  intros. unfold CalibIdentity.__init__, py_int.
  now rewrite !int_of_str_dec_digits.
Qed.
(** ** What the constructor guarantees *)

Lemma construct_inv dtype identity fiberId radius oversample rows profiles norm metadata
      self :
  PfsFiberProfiles.construct dtype identity fiberId radius oversample rows profiles norm
                             metadata
  = Ok self ->
  exists profiles',
    mapM masked_array_of profiles = Ok profiles'
    /\ self = PfsFiberProfiles.mk identity fiberId radius oversample rows profiles' norm
                metadata (List.length fiberId) dtype
    /\ valid self.
Proof.
  unfold PfsFiberProfiles.construct.
  destruct (mapM masked_array_of profiles) as [profiles'|]; cbn [bind]; [| discriminate].
  destruct (PfsFiberProfiles.validate _) as [[]|e] eqn:V; cbn [bind]; [| discriminate].
  intro H. injection H as <-. exists profiles'.
  split; [reflexivity |]. split; [reflexivity |]. now apply validate_valid.
Qed.





Lemma int_of_float_kinds (x : float) (e : exn) :
  int_of_float x = Error e -> e = ValueError \/ e = OverflowError.
Proof.
  unfold int_of_float. destruct (Prim2SF x); intro H; try discriminate;
    injection H as <-; auto.
Qed.

Lemma all_widths_kinds (dt : int_dtype) (prof : list profile_row) (rad : Z) (samp : float)
      (e : exn) :
  PfsFiberProfiles.all_widths dt prof rad samp = Error e ->
  e = ValueError \/ e = OverflowError.
Proof.
  induction prof as [|pp prof IH]; cbn; [discriminate |].
  unfold PfsFiberProfiles.profile_width.
  destruct (int_of_float _) as [n|e'] eqn:F; cbn [bind].
  - destruct (_ =? _); [exact IH | discriminate].
  - intro H. injection H as <-. eapply int_of_float_kinds; eauto.
Qed.

Lemma check_widths_failure_kinds (dt : int_dtype)
      (l : list (list profile_row * Z * float)) (e : exn) :
  PfsFiberProfiles.check_widths dt l = Error e ->
  e = AssertionError \/ e = ValueError \/ e = OverflowError.
Proof.
  induction l as [|[[prof rad] samp] l IH]; cbn; [discriminate |].
  destruct (PfsFiberProfiles.all_widths dt prof rad samp) as [[|]|e'] eqn:A; cbn.
  - exact IH.
  - intro H. injection H as <-. auto.
  - intro H. injection H as <-. right. eapply all_widths_kinds; eauto.
Qed.

Lemma assert_error (c : bool) (k : result unit) (e : exn) :
  (assert c ;;; k) = Error e -> e = AssertionError \/ k = Error e.
Proof. destruct c; cbn; intro H; [now right | left; now injection H as <-]. Qed.

(** X5. A construction that fails raises an AssertionError, a ValueError or
    an OverflowError, and nothing else: the ValueError is that of numpy for
    profiles whose rows differ in length, or that of [int] on a width that is
    a NaN; the OverflowError is that of [int] on an infinite width. *)
Theorem construction_failure_kinds :
  forall identity fiberId radius oversample rows profiles norm metadata e,
    PfsFiberProfiles.__init__ identity fiberId radius oversample rows profiles norm metadata
    = Error e ->
    e = AssertionError \/ e = ValueError \/ e = OverflowError.
Proof.
  intros identity fiberId radius oversample rows profiles norm metadata e.
  unfold PfsFiberProfiles.__init__, PfsFiberProfiles.construct.
  destruct (mapM masked_array_of profiles) as [profiles'|e0] eqn:C; cbn [bind].
  2: { intro H. injection H as <-. right. left. eapply converted_error; eauto. }
  destruct (PfsFiberProfiles.validate _) as [[]|e'] eqn:V; cbn [bind]; [discriminate |].
  intro H. injection H as <-. unfold PfsFiberProfiles.validate in V.
  do 6 (apply assert_error in V; destruct V as [-> | V]; [now left |]).
  destruct (PfsFiberProfiles.check_widths _ _) as [[]|e3] eqn:W; cbn [bind] in V.
  - unfold assert in V. destruct (_ =? _)%nat; [discriminate |].
    injection V as <-. now left.
  - injection V as <-. eapply check_widths_failure_kinds; eauto.
Qed.

Lemma construction_failure_kinds_witness :
  PfsFiberProfiles.__init__ calib0 [10] [1] [infinity] [[100%float]] [[unmasked13]] [[]] []
  = Error OverflowError
  /\ (OverflowError = AssertionError \/ OverflowError = ValueError
      \/ OverflowError = OverflowError).
Proof.
  split; [vm_compute; reflexivity |].
  apply (construction_failure_kinds calib0 [10] [1] [infinity] [[100%float]]
           [[unmasked13]] [[]] []).
  vm_compute. reflexivity.
Defined.

Lemma check_widths_empty_fibers (dt : int_dtype) (profiles : list (list profile_row)) :
  forall (radius radius' : list Z) (oversample oversample' : list float),
    List.length radius' = List.length radius ->
    List.length oversample' = List.length oversample ->
    (forall i prof, nth_error profiles i = Some prof -> prof <> [] ->
                    nth_error radius' i = nth_error radius i
                    /\ nth_error oversample' i = nth_error oversample i) ->
    PfsFiberProfiles.check_widths dt (PfsFiberProfiles.zip3 profiles radius' oversample')
    = PfsFiberProfiles.check_widths dt (PfsFiberProfiles.zip3 profiles radius oversample).
Proof.
  induction profiles as [|prof profiles IH];
    intros [|rad radius] [|rad' radius'] [|samp oversample] [|samp' oversample'] Lr Ls H;
    try discriminate; try reflexivity.
  cbn [PfsFiberProfiles.zip3 PfsFiberProfiles.check_widths].
  injection Lr as Lr. injection Ls as Ls.
  rewrite (IH radius radius' oversample oversample' Lr Ls)
    by (intros i p Hp Hn; apply (H (S i) p Hp Hn)).
  destruct prof as [|pp prof]; [reflexivity |].
  destruct (H 0%nat (pp :: prof) eq_refl) as [Er Es]; [discriminate |].
  injection Er as ->. injection Es as ->. reflexivity.
Qed.

(** X6. The width is computed for a fiber only when it has a profile: the
    radius and the oversampling of the fibers without profiles have no part in
    validation, whatever they are. *)
Theorem empty_fibers_geometry_unchecked :
  forall (self : PfsFiberProfiles.t) (radius' : list Z) (oversample' : list float),
    List.length radius' = List.length (PfsFiberProfiles.radius self) ->
    List.length oversample' = List.length (PfsFiberProfiles.oversample self) ->
    (forall i prof,
        nth_error (PfsFiberProfiles.profiles self) i = Some prof -> prof <> [] ->
        nth_error radius' i = nth_error (PfsFiberProfiles.radius self) i
        /\ nth_error oversample' i = nth_error (PfsFiberProfiles.oversample self) i) ->
    PfsFiberProfiles.validate (set_geometry self radius' oversample')
    = PfsFiberProfiles.validate self.
Proof.
  intros self radius' oversample' Lr Ls H.
  unfold PfsFiberProfiles.validate, set_geometry. cbn.
  rewrite Lr, Ls.
  now rewrite (check_widths_empty_fibers _ _ _ _ _ _ Lr Ls H).
Qed.

Lemma empty_fibers_geometry_unchecked_witness :
  PfsFiberProfiles.validate (set_geometry sample [1; -7] [3%float; nan])
  = PfsFiberProfiles.validate sample.
Proof.
  apply empty_fibers_geometry_unchecked; try reflexivity.
  intros [|[|i]] prof Hp Hn; cbn in Hp.
  - split; reflexivity.
  - injection Hp as <-. contradiction.
  - destruct i; discriminate Hp.
Defined.

(** ** More on the writer *)


Lemma dict_get_set_other {V : Type} (d : dict V) (key key' : string) (v : V) :
  key' <> key -> dict_get (dict_set d key v) key' = dict_get d key'.
Proof.
  intro N. induction d as [|[k w] d IH]; cbn.
  - destruct (String.eqb_spec key key'); [congruence | reflexivity].
  - destruct (String.eqb_spec k key) as [-> |]; cbn.
    + destruct (String.eqb_spec key key'); [congruence | reflexivity].
    + destruct (String.eqb k key'); [reflexivity | exact IH].
Qed.



(** *** The primary header *)
















(** ** More on the reader *)

(** X9. An object [_readImpl] returns has passed validation, with the
    widths computed in int32, the dtype of the column [radius].  The profiles
    of every fiber are the rows of a masked array that has a mask array, also
    when nothing is masked, so that [_writeImpl] stores a mask for each.  The
    object carries the identity given, the four columns of [FIBERS], the
    cards of the primary header as metadata, and as many fibers as [FIBERS]
    has rows. *)
Theorem readImpl_result :
  forall (fits : HDUList) (identity : CalibIdentity.t) (q : PfsFiberProfiles.t),
    PfsFiberProfiles._readImpl fits identity = Ok q ->
    PfsFiberProfiles.validate q = Ok tt
    /\ PfsFiberProfiles.radius_dtype q = int32
    /\ forallb has_mask_array (PfsFiberProfiles.profiles q) = true
    /\ PfsFiberProfiles.identity q = identity
    /\ PfsFiberProfiles.fiberId q = F_fiberId (FIBERS fits)
    /\ PfsFiberProfiles.radius q = F_radius (FIBERS fits)
    /\ PfsFiberProfiles.oversample q = F_oversample (FIBERS fits)
    /\ PfsFiberProfiles.norm q = F_norm (FIBERS fits)
    /\ PfsFiberProfiles.metadata q = astropyHeaderToDict (header fits)
    /\ PfsFiberProfiles.__len__ q = List.length (F_fiberId (FIBERS fits)).
Proof.
  intros fits identity q. unfold PfsFiberProfiles._readImpl.
  destruct (mapM _ _) as [fibers|e] eqn:M; cbn [bind]; [| discriminate].
  intro H. apply construct_inv in H. destruct H as (profiles' & C & -> & V).
  rewrite (read_fibers_converted _ _ _ _ _ _ _ M) in C. injection C as <-.
  apply validate_valid in V.
  split; [exact V |]. split; [reflexivity |]. split; [| repeat split].
  cbn [PfsFiberProfiles.profiles]. rewrite forallb_forall. intros prof HI.
  apply in_map_iff in HI. destruct HI as ([rr prof'] & E & HI). cbn in E. subst prof'.
  destruct (mapM_In _ _ _ M _ HI) as (ii & _ & F).
  apply read_fiber_selects in F. now destruct F as (fid & _ & _ & _ & _ & HM & _).
Qed.

Lemma readImpl_result_witness :
  PfsFiberProfiles.validate sample_read = Ok tt
  /\ forallb has_mask_array (PfsFiberProfiles.profiles sample_read) = true
  /\ PfsFiberProfiles.__len__ sample_read = List.length (F_fiberId (FIBERS sample_file)).
Proof.
  destruct (readImpl_result sample_file calib0 sample_read)
    as (V & _ & HM & _ & _ & _ & _ & _ & _ & L).
  - vm_compute. reflexivity.
  - repeat split; assumption.
Defined.

Lemma compress_length_select {A B : Type} (a : list A) (b : list B) (s : list bool) :
  List.length a = List.length s -> List.length b = List.length s ->
  List.length (compress a s) = List.length (compress b s).
Proof.
  revert a b. induction s as [|x s IH]; intros [|y a] [|z b] La Lb; try discriminate;
    try reflexivity.
  injection La as La. injection Lb as Lb. cbn.
  destruct x; cbn; rewrite (IH a b La Lb); reflexivity.
Qed.

Lemma concat_all_nil {A : Type} (m : list (list A)) :
  (forall r, In r m -> r = []) -> List.concat m = [].
Proof.
  induction m as [|r m IH]; intro H; [reflexivity |].
  cbn. rewrite (H r) by now left. apply IH. intros; apply H; now right.
Qed.

Lemma rectangular_all_nil {A : Type} (m : list (list A)) :
  (forall r, In r m -> r = []) -> rectangular m = true.
Proof.
  intro H. destruct m as [|r m]; [reflexivity |]. cbn.
  rewrite forallb_forall. intros r' Hr'.
  rewrite (H r) by now left. rewrite (H r') by now right. reflexivity.
Qed.

(** Empty masks for rows that have data: the masked array cannot be made. *)
Lemma masked_array_empty_masks (data : list (list float)) (m : list (list bool)) :
  rectangular data = true -> List.length m = List.length data ->
  (forall r, In r m -> r = []) -> (exists d, In d data /\ d <> []) ->
  masked_array data (Some m) = Error MaskError.
Proof.
  intros R L HM (d & Hd & Hn). unfold masked_array.
  destruct data as [|d0 data]; [destruct Hd |].
  destruct m as [|m0 m]; [discriminate |].
  assert (W : d0 <> []).
  { destruct Hd as [-> | Hd]; [exact Hn |].
    cbn in R. rewrite forallb_forall in R. apply R, Nat.eqb_eq in Hd.
    intros ->. destruct d; [congruence | discriminate]. }
  assert (S : shape_eqb (shape (m0 :: m)) (shape (d0 :: data)) = false).
  { cbn. rewrite (HM m0) by now left. cbn.
    destruct d0; [congruence |]. cbn. now rewrite andb_false_r. }
  rewrite S, (concat_all_nil (m0 :: m) HM).
  unfold size. rewrite (concat_all_nil (m0 :: m) HM).
  cbn [List.concat]. rewrite length_app.
  destruct d0; [congruence | reflexivity].
Qed.

Lemma nth_error_seq0_inv (n j b : nat) : nth_error (seq 0 n) j = Some b -> b = j.
Proof.
  intro H.
  assert (Hj : (j < n)%nat).
  { assert (N : nth_error (seq 0 n) j <> None) by congruence.
    apply nth_error_Some in N. now rewrite length_seq in N. }
  rewrite (nth_error_seq0 n j Hj) in H. now injection H as <-.
Qed.

Lemma mapM_first_error {A B : Type} (f : A -> result B) (l : list A) :
  forall (i : nat) (a : A) (e : exn),
    nth_error l i = Some a -> f a = Error e ->
    (forall j b, (j < i)%nat -> nth_error l j = Some b -> is_ok (f b) = true) ->
    mapM f l = Error e.
Proof.
  induction l as [|x l IH]; intros [|i] a e Hn Hf Hb; try discriminate.
  - cbn in Hn. injection Hn as ->. cbn. now rewrite Hf.
  - cbn in Hn. cbn.
    pose proof (Hb 0%nat x (Nat.lt_0_succ i) eq_refl) as H0.
    destruct (f x) as [b|]; [| discriminate]. cbn [bind].
    rewrite (IH i a e Hn Hf); [reflexivity |].
    intros j b' Hj Hn'. apply (Hb (S j) b'); [lia | exact Hn'].
Qed.

(** X10. When the rows selected for a fiber all have an empty mask and some
    of them has data, and the fibers before it are read without failure,
    [_readImpl] raises a MaskError: an empty mask is not read as "nothing
    masked". *)
Theorem empty_masks_MaskError :
  forall (fits : HDUList) (identity : CalibIdentity.t) (ii : nat) (fid : Z),
    let t := PROFILES fits in
    let select := select_fiber (P_fiberId t) fid in
    table_wf t ->
    nth_error (F_fiberId (FIBERS fits)) ii = Some fid ->
    (forall j, (j < ii)%nat ->
               is_ok (PfsFiberProfiles.read_fiber (F_fiberId (FIBERS fits)) (P_fiberId t)
                        (P_rows t) (P_profiles t) (P_masks t) j) = true) ->
    rectangular (compress (P_profiles t) select) = true ->
    (exists d, In d (compress (P_profiles t) select) /\ d <> []) ->
    (forall m, In m (compress (P_masks t) select) -> m = []) ->
    PfsFiberProfiles._readImpl fits identity = Error MaskError.
Proof.
  intros fits identity ii fid t select (L1 & L2 & L3) Hf Hb R HD HM.
  unfold PfsFiberProfiles._readImpl. fold t.
  assert (Hi : (ii < List.length (F_fiberId (FIBERS fits)))%nat)
    by (apply nth_error_Some; congruence).
  rewrite (mapM_first_error _ _ ii ii MaskError (nth_error_seq0 _ _ Hi)); [reflexivity | |].
  - unfold PfsFiberProfiles.read_fiber, getitem. rewrite Hf. cbn [bind].
    change (map (fun f => f =? fid) (P_fiberId t)) with select.
    assert (Ls : List.length select = List.length (P_fiberId t))
      by apply select_fiber_length.
    unfold bool_index. rewrite L1, L2, L3, Ls, !Nat.eqb_refl. cbn [bind].
    unfold np_array at 1. rewrite R. cbn [bind].
    assert (LM : List.length (compress (P_masks t) select)
                 = List.length (compress (P_profiles t) select))
      by (apply compress_length_select; congruence).
    destruct HD as (d & Hd & Hn).
    destruct (compress (P_masks t) select) as [|m0 ms] eqn:EM.
    + destruct (compress (P_profiles t) select); [destruct Hd | discriminate].
    + cbn [List.length Nat.ltb Nat.leb]. unfold np_array.
      rewrite (rectangular_all_nil _ HM). cbn [bind].
      rewrite masked_array_empty_masks; eauto.
  - intros j b Hj Hn. apply nth_error_seq0_inv in Hn. subst b. now apply Hb.
Qed.

Lemma empty_masks_MaskError_witness :
  PfsFiberProfiles._readImpl unmasked_file calib0 = Error MaskError.
Proof.
  apply (empty_masks_MaskError unmasked_file calib0 0 10).
  - repeat split.
  - reflexivity.
  - intros j Hj. lia.
  - vm_compute. reflexivity.
  - exists row13. split; [left; reflexivity | vm_compute; discriminate].
  - intros m H. cbn in H. destruct H as [<- | []]. reflexivity.
Defined.

(** ** Rows of PROFILES that belong to no fiber *)

Lemma known_nth (fiberId1 : list Z) (i : nat) (fid : Z) :
  nth_error fiberId1 i = Some fid -> known fiberId1 fid = true.
Proof.
  intro H. unfold known. apply existsb_exists. exists fid.
  split; [eapply nth_error_In; eauto | apply Z.eqb_refl].
Qed.

Section Orphans.

Context {A : Type}.
Variable keep : Z -> bool.

(** Selecting the rows of a fiber that is kept, before or after the rows that
    are not kept have been removed, gives the same rows. *)
Lemma compress_kept (fid : Z) :
  keep fid = true ->
  forall (ids : list Z) (col : list A),
    List.length col = List.length ids ->
    compress (compress col (map keep ids)) (select_fiber (compress ids (map keep ids)) fid)
    = compress col (select_fiber ids fid).
Proof.
  intros K. induction ids as [|f ids IH]; intros [|x col] L; try discriminate;
    [reflexivity |].
  injection L as L. cbn [map compress select_fiber].
  destruct (keep f) eqn:Kf.
  - cbn [map compress select_fiber]. fold (select_fiber (compress ids (map keep ids)) fid).
    fold (select_fiber ids fid). rewrite (IH col L). reflexivity.
  - fold (select_fiber ids fid).
    destruct (Z.eqb_spec f fid) as [-> |]; [congruence |].
    apply (IH col L).
Qed.

Lemma compress_kept_length (ids : list Z) (col : list A) :
  List.length col = List.length ids ->
  List.length (compress col (map keep ids)) = List.length (compress ids (map keep ids)).
Proof.
  intro L. apply compress_length_select; rewrite length_map; congruence.
Qed.

End Orphans.

Lemma mapM_ext_in {A B : Type} (f g : A -> result B) (l : list A) :
  (forall a, In a l -> f a = g a) -> mapM f l = mapM g l.
Proof.
  induction l as [|a l IH]; intro H; [reflexivity |].
  cbn. rewrite (H a) by now left. destruct (g a); [| reflexivity]. cbn [bind].
  rewrite IH; [reflexivity |]. intros; apply H; now right.
Qed.

(** X11. The rows of [PROFILES] whose [fiberId] occurs in no row of [FIBERS]
    have no part in what [_readImpl] returns: the file read with and without
    them gives the same result. *)
Theorem orphan_rows_ignored :
  forall (fits : HDUList) (identity : CalibIdentity.t),
    table_wf (PROFILES fits) ->
    PfsFiberProfiles._readImpl (drop_orphans fits) identity
    = PfsFiberProfiles._readImpl fits identity.
Proof.
  intros fits identity (L1 & L2 & L3).
  unfold PfsFiberProfiles._readImpl, drop_orphans.
  cbn [header FIBERS PROFILES P_fiberId P_rows P_profiles P_masks].
  set (fiberId1 := F_fiberId (FIBERS fits)).
  set (ids := P_fiberId (PROFILES fits)) in *.
  rewrite (mapM_ext_in _
             (PfsFiberProfiles.read_fiber fiberId1 ids (P_rows (PROFILES fits))
                (P_profiles (PROFILES fits)) (P_masks (PROFILES fits)))); [reflexivity |].
  intros ii Hii. unfold PfsFiberProfiles.read_fiber, getitem.
  destruct (nth_error fiberId1 ii) as [fid|] eqn:Hf; [| reflexivity]. cbn [bind].
  pose proof (known_nth _ _ _ Hf) as K.
  change (map (fun f => f =? fid) ?x) with (select_fiber x fid).
  unfold bool_index. rewrite !select_fiber_length.
  rewrite (compress_kept_length (known fiberId1) ids (P_rows (PROFILES fits)) L1).
  rewrite (compress_kept_length (known fiberId1) ids (P_profiles (PROFILES fits)) L2).
  rewrite (compress_kept_length (known fiberId1) ids (P_masks (PROFILES fits)) L3).
  rewrite L1, L2, L3, !Nat.eqb_refl. cbn [bind].
  rewrite (compress_kept (known fiberId1) fid K ids (P_rows (PROFILES fits)) L1).
  rewrite (compress_kept (known fiberId1) fid K ids (P_profiles (PROFILES fits)) L2).
  rewrite (compress_kept (known fiberId1) fid K ids (P_masks (PROFILES fits)) L3).
  reflexivity.
Qed.

Lemma orphan_rows_ignored_witness :
  PfsFiberProfiles._readImpl
    (mkHDUList [] (mkFibers [10] [1] [3%float] [[]])
               (mkProfiles [10] [100%float] [row13] [repeat false 13])) calib0
  = PfsFiberProfiles._readImpl
      (mkHDUList [] (mkFibers [10] [1] [3%float] [[]])
                 (mkProfiles [10; 30] [100%float; 300%float] [row13; [1%float]]
                             [repeat false 13; [true]])) calib0.
Proof.
  apply (orphan_rows_ignored
           (mkHDUList [] (mkFibers [10] [1] [3%float] [[]])
                      (mkProfiles [10; 30] [100%float; 300%float] [row13; [1%float]]
                                  [repeat false 13; [true]])) calib0).
  repeat split.
Defined.

(** ** Paths and files *)

Lemma match_slash {T : Type} (c : ascii) (x y : T) :
  match c with
  | "/"%char => x
  | _ => y
  end = if Ascii.eqb c "/" then x else y.
Proof. destruct c as [[] [] [] [] [] [] [] []]; reflexivity. Qed.

Lemma chars_app (a b : string) : chars (a ++ b)%string = chars a ++ chars b.
Proof.
  unfold chars. induction a as [|c a IH]; cbn; [reflexivity | now rewrite IH].
Qed.

Lemma str_chars (s : string) : str (chars s) = s.
Proof. apply string_of_list_ascii_of_string. Qed.

Lemma chars_str (l : list ascii) : chars (str l) = l.
Proof. apply list_ascii_of_string_of_list_ascii. Qed.

Lemma basename_aux_no_slash (l acc : list ascii) :
  forallb (fun c => negb (Ascii.eqb c "/")) l = true ->
  basename_aux l acc = rev acc ++ l.
Proof.
  revert acc. induction l as [|c l IH]; intros acc H; cbn.
  - now rewrite app_nil_r.
  - cbn in H. apply andb_prop in H. destruct H as [Hc H].
    apply negb_true_iff in Hc. rewrite Hc, (IH _ H). cbn.
    now rewrite <- app_assoc.
Qed.

Lemma basename_aux_slash (a l acc : list ascii) :
  basename_aux (a ++ "/"%char :: l) acc = basename_aux l [].
Proof.
  revert acc. induction a as [|c a IH]; intro acc; cbn; [reflexivity |].
  destruct (Ascii.eqb c "/"); apply IH.
Qed.

(** The basename of a joined path is the name that was joined, when the name
    has no slash. *)
Lemma basename_join (dirName name : string) :
  no_slash name = true -> basename (path_join dirName name) = name.
Proof.
  intro N. unfold no_slash in N.
  assert (B : forall a, basename (a ++ "/" ++ name)%string = name).
  { intro a. unfold basename. rewrite chars_app.
    change (chars ("/" ++ name)%string) with ("/"%char :: chars name).
    rewrite basename_aux_slash, (basename_aux_no_slash _ [] N). apply str_chars. }
  assert (B0 : basename name = name).
  { unfold basename. rewrite (basename_aux_no_slash _ [] N). apply str_chars. }
  unfold path_join.
  destruct (chars name) as [|c l] eqn:E.
  - destruct (rev (chars dirName)) as [|d r] eqn:R; [exact B0 |].
    rewrite match_slash. destruct (Ascii.eqb_spec d "/") as [-> |]; [| apply B].
    unfold basename. rewrite chars_app, E, app_nil_r.
    apply (f_equal (@rev ascii)) in R. rewrite rev_involutive in R. rewrite R. cbn [rev].
    rewrite basename_aux_slash. cbn.
    symmetry. rewrite <- (str_chars name), E. reflexivity.
  - rewrite match_slash.
    cbn in N. apply andb_prop in N. destruct N as [Nc N].
    apply negb_true_iff in Nc. rewrite Nc.
    destruct (rev (chars dirName)) as [|d r] eqn:R; [exact B0 |].
    rewrite match_slash. destruct (Ascii.eqb_spec d "/") as [-> |]; [| apply B].
    unfold basename. rewrite chars_app.
    apply (f_equal (@rev ascii)) in R. rewrite rev_involutive in R. rewrite R. cbn [rev].
    rewrite <- app_assoc. cbn [app]. rewrite basename_aux_slash, E.
    rewrite (basename_aux_no_slash (c :: l) []).
    + cbn [rev app]. rewrite <- E. apply str_chars.
    + cbn. now rewrite Nc, N.
Qed.

(** X12. [parseFilename] reads the basename only: on a name without a slash
    joined to any directory it returns what it returns on the name. *)
Theorem parseFilename_ignores_directory :
  forall dirName name : string,
    no_slash name = true ->
    PfsFiberProfiles.parseFilename (path_join dirName name)
    = PfsFiberProfiles.parseFilename name.
Proof.
  intros dirName name N. unfold PfsFiberProfiles.parseFilename.
  rewrite (basename_join dirName name N).
  replace (basename name) with name; [reflexivity |].
  symmetry. unfold basename, no_slash in *.
  rewrite (basename_aux_no_slash _ [] N). apply str_chars.
Qed.

Lemma parseFilename_ignores_directory_witness :
  PfsFiberProfiles.parseFilename
    (path_join "/data/calib" "pfsFiberProfiles-2024-01-02-000042-b1.fits")
  = PfsFiberProfiles.parseFilename "pfsFiberProfiles-2024-01-02-000042-b1.fits".
Proof.
  apply parseFilename_ignores_directory. vm_compute. reflexivity.
Defined.



(** X14. [readFits] parses the name before it opens the file: a name that
    does not parse raises the RuntimeError of [parseFilename] whether or not
    the file exists, and a name that parses raises FileNotFoundError when
    there is no such file. *)
Theorem readFits_failures :
  forall (fs : PfsFiberProfiles.filesystem) (filename : string),
    (re_search PfsFiberProfiles.filenameRegex (basename filename) = Ok None ->
     PfsFiberProfiles.readFits fs filename
     = Error (RuntimeError ("Unable to parse filename: " ++ basename filename)%string))
    /\ (forall identity,
           PfsFiberProfiles.parseFilename filename = Ok identity ->
           is_ok (dict_get fs filename) = false ->
           PfsFiberProfiles.readFits fs filename = Error (FileNotFoundError filename)).
Proof.
  intros fs filename. unfold PfsFiberProfiles.readFits. split.
  - intro H. unfold PfsFiberProfiles.parseFilename. rewrite H. reflexivity.
  - intros identity P A. rewrite P. cbn [bind]. unfold PfsFiberProfiles.fits_open.
    destruct (dict_get fs filename); [discriminate | reflexivity].
Qed.

Lemma readFits_failures_witness :
  PfsFiberProfiles.readFits [("pfsArm-xxxx.fits", sample_file)] "pfsArm-xxxx.fits"
  = Error (RuntimeError "Unable to parse filename: pfsArm-xxxx.fits")
  /\ PfsFiberProfiles.readFits [] "pfsFiberProfiles-2024-01-02-000042-b1.fits"
     = Error (FileNotFoundError "pfsFiberProfiles-2024-01-02-000042-b1.fits").
Proof.
  split.
  - apply (proj1 (readFits_failures [("pfsArm-xxxx.fits", sample_file)]
                    "pfsArm-xxxx.fits")).
    vm_compute. reflexivity.
  - apply (proj2 (readFits_failures [] "pfsFiberProfiles-2024-01-02-000042-b1.fits")
             calib0).
    + vm_compute. reflexivity.
    + reflexivity.
Defined.

(** ** Decimal digits *)

Lemma string_of_uint_length (u : Decimal.uint) :
  List.length (chars (DecimalString.NilEmpty.string_of_uint u)) = Decimal.nb_digits u.
Proof. unfold chars. induction u; cbn; congruence. Qed.

Lemma string_of_uint_digits (u : Decimal.uint) :
  forallb is_digit (chars (DecimalString.NilEmpty.string_of_uint u)) = true.
Proof. unfold chars. induction u; cbn; auto. Qed.

Lemma uint_of_string_zeros (k : nat) (s : string) (u : Decimal.uint) :
  DecimalString.NilEmpty.uint_of_string s = Some u ->
  DecimalString.NilEmpty.uint_of_string (str (repeat "0"%char k ++ chars s))
  = Some (Nat.iter k Decimal.D0 u).
Proof.
  intro H. induction k as [|k IH]; cbn.
  - now rewrite str_chars.
  - unfold str in IH. rewrite IH. reflexivity.
Qed.

Lemma of_uint_zeros (k : nat) (u : Decimal.uint) :
  N.of_uint (Nat.iter k Decimal.D0 u) = N.of_uint u.
Proof. induction k as [|k IH]; [reflexivity | exact IH]. Qed.

Lemma exists_little_endian (k : nat) :
  forall n : N, (n < 10 ^ N.of_nat k)%N ->
                exists lu, Decimal.nb_digits lu = k /\ DecimalPos.Unsigned.of_lu lu = n.
Proof.
  induction k as [|k IH]; intros n H.
  - exists Decimal.Nil. change (10 ^ N.of_nat 0)%N with 1%N in H.
    cbn [Decimal.nb_digits DecimalPos.Unsigned.of_lu]. split; [reflexivity | lia].
  - rewrite Nat2N.inj_succ, N.pow_succ_r' in H.
    destruct (IH (n / 10)%N) as (lu & L & E).
    { apply N.Div0.div_lt_upper_bound. lia. }
    assert (T : (10 <> 0)%N) by lia.
    pose proof (N.div_mod n 10 T) as DM.
    pose proof (N.mod_upper_bound n 10 T) as MB.
    remember (n mod 10)%N as r eqn:R.
    assert (Hd : forall d : Decimal.uint -> Decimal.uint,
               Decimal.nb_digits (d lu) = S (Decimal.nb_digits lu) ->
               DecimalPos.Unsigned.of_lu (d lu) = (r + 10 * DecimalPos.Unsigned.of_lu lu)%N ->
               exists lu', Decimal.nb_digits lu' = S k
                           /\ DecimalPos.Unsigned.of_lu lu' = n).
    { intros d Hn Ho. exists (d lu). split; [congruence | lia]. }
    destruct r as [|p]; [apply (Hd Decimal.D0); reflexivity |].
    destruct p as [[[[p|p|]|[p|p|]|]|[[p|p|]|[p|p|]|]|]|[[[p|p|]|[p|p|]|]|[[p|p|]|[p|p|]|]|]|];
      try lia;
      first [ apply (Hd Decimal.D1); reflexivity | apply (Hd Decimal.D2); reflexivity
            | apply (Hd Decimal.D3); reflexivity | apply (Hd Decimal.D4); reflexivity
            | apply (Hd Decimal.D5); reflexivity | apply (Hd Decimal.D6); reflexivity
            | apply (Hd Decimal.D7); reflexivity | apply (Hd Decimal.D8); reflexivity
            | apply (Hd Decimal.D9); reflexivity ].
Qed.

(** A natural number below [10^k] has at most [k] decimal digits. *)
Lemma to_uint_nb_digits (k : nat) (n : N) :
  (0 < k)%nat -> (n < 10 ^ N.of_nat k)%N ->
  (Decimal.nb_digits (N.to_uint n) <= k)%nat.
Proof.
  intros K H. destruct (exists_little_endian k n H) as (lu & L & E).
  assert (E' : N.of_uint (Decimal.rev lu) = n).
  { unfold N.of_uint. now rewrite DecimalPos.Unsigned.of_lu_rev. }
  rewrite <- E', DecimalN.Unsigned.to_of.
  assert (NN : Decimal.rev lu <> Decimal.Nil).
  { intro R. apply DecimalFacts.rev_nil_inv in R. subst lu. cbn in L. lia. }
  pose proof (DecimalFacts.nb_digits_unorm _ NN) as B.
  rewrite DecimalFacts.nb_digits_rev in B. lia.
Qed.

(** The decimal digits of a number below [10^w]: between one and [w] digit
    characters, which [int] reads back, whatever zeros are put before. *)
Lemma dec_digits_body (w : nat) (v : Z) :
  (0 < w)%nat -> 0 <= v < 10 ^ Z.of_nat w ->
  let body := chars (dec_digits (Z.abs_N v)) in
  (1 <= List.length body <= w)%nat
  /\ forallb is_digit body = true
  /\ forall k, nat_of_digits (repeat "0"%char k ++ body) = Ok v.
Proof.
  intros W H body. subst body. unfold dec_digits.
  set (n := Z.abs_N v).
  assert (Hn : (n < 10 ^ N.of_nat w)%N).
  { subst n. apply N2Z.inj_lt. rewrite N2Z.inj_abs_N, Z.abs_eq by lia.
    rewrite N2Z.inj_pow, nat_N_Z. cbn. lia. }
  assert (NN : N.to_uint n <> Decimal.Nil).
  { destruct n; [discriminate | apply Unsigned.to_uint_nonnil]. }
  assert (S : DecimalString.NilZero.string_of_uint (N.to_uint n)
              = DecimalString.NilEmpty.string_of_uint (N.to_uint n)).
  { unfold DecimalString.NilZero.string_of_uint. destruct (N.to_uint n); congruence. }
  rewrite S, string_of_uint_length, string_of_uint_digits.
  pose proof (to_uint_nb_digits w n W Hn) as B.
  assert (B1 : (1 <= Decimal.nb_digits (N.to_uint n))%nat).
  { destruct (N.to_uint n); cbn; [congruence | lia ..]. }
  split; [lia |]. split; [reflexivity |].
  intro k. unfold nat_of_digits.
  rewrite (uint_of_string_zeros k _ (N.to_uint n)) by apply DecimalString.NilEmpty.usu.
  rewrite of_uint_zeros, DecimalN.Unsigned.of_to.
  assert (Z.of_N n = v) by (subst n; rewrite N2Z.inj_abs_N; lia).
  destruct (repeat "0"%char k ++ _) eqn:E; [| congruence].
  apply (f_equal (@List.length ascii)) in E.
  rewrite length_app, string_of_uint_length in E. cbn in E. lia.
Qed.

(** A field for a number: [%0wd], or [%1d], of a number below [10^w] is [w]
    digit characters that [int] reads back. *)
Lemma format_int_field (zero : bool) (w : nat) (v : Z) :
  (0 < w)%nat -> 0 <= v < 10 ^ Z.of_nat w -> zero = true \/ w = 1%nat ->
  let l := format_int dec_digits zero w v in
  List.length l = w /\ forallb is_digit l = true /\ nat_of_digits l = Ok v.
Proof.
  intros W H HZ l. subst l. unfold format_int.
  destruct (dec_digits_body w v W H) as ((B1 & B2) & B3 & B4).
  destruct (Z.ltb_spec v 0) as [N | _]; [lia |]. cbn [List.length app Nat.sub].
  destruct zero.
  - rewrite length_app, repeat_length, forallb_app, B3, B4.
    split; [lia |]. split; [| reflexivity].
    rewrite andb_true_r. apply forallb_forall. intros c Hc.
    apply repeat_spec in Hc. now subst c.
  - destruct HZ as [HZ | ->]; [discriminate |].
    replace (1 - 0 - List.length (chars (dec_digits (Z.abs_N v))))%nat with 0%nat by lia.
    cbn [repeat app]. repeat split; [lia | exact B3 | apply (B4 0%nat)].
Qed.

(** ** The canonical file name of a calibration *)

Lemma cls_lit (c : ascii) : cls_match (CLit c) c = true.
Proof. apply Ascii.eqb_refl. Qed.

Lemma digit_not_slash (c : ascii) :
  is_digit c = true -> negb (Ascii.eqb c "/") = true.
Proof.
  intro H. destruct c as [[] [] [] [] [] [] [] []]; try reflexivity;
    vm_compute in H; discriminate H.
Qed.

Lemma int_of_str_digit (c : ascii) (s : string) :
  is_digit c = true -> int_of_str (String c s) = nat_of_digits (c :: chars s).
Proof.
  intro H. destruct c as [[] [] [] [] [] [] [] []];
    try (vm_compute in H; discriminate H); reflexivity.
Qed.

(** What [py_format] makes of the format and the [dict] of an identity. *)
Lemma format_canonical (obsDate arm : string) (spectrograph visit0 : Z) :
  py_format PfsFiberProfiles.filenameFormat
            (CalibIdentity.toDict (CalibIdentity.mk obsDate spectrograph arm visit0))
  = Ok (str (chars "pfsFiberProfiles-"
             ++ (repeat " "%char (10 - List.length (chars obsDate)) ++ chars obsDate)
             ++ "-"%char :: format_int dec_digits true 6 visit0
             ++ "-"%char :: (repeat " "%char (1 - List.length (chars arm)) ++ chars arm)
             ++ format_int dec_digits false 1 spectrograph ++ chars ".fits")).
Proof.
  unfold py_format.
  set (items := parse_format SText (chars PfsFiberProfiles.filenameFormat)).
  vm_compute in items. subst items. cbn [bind].
  unfold CalibIdentity.toDict.
  cbn -[format_int repeat Nat.sub chars str List.length List.concat].
  reflexivity.
Qed.

(** The pattern on a canonical name: the groups are the four fields. *)
Lemma parse_canonical (o1 o2 o3 o4 o5 o6 o7 o8 o9 o10 d1 d2 d3 d4 d5 d6 a s : ascii) :
  Forall (fun c => name_char c = true) [o1; o2; o3; o4; o5; o6; o7; o8; o9; o10; a] ->
  Forall (fun c => is_digit c = true) [d1; d2; d3; d4; d5; d6; s] ->
  PfsFiberProfiles.parseFilename
    (str (chars "pfsFiberProfiles-" ++ [o1; o2; o3; o4; o5; o6; o7; o8; o9; o10]
          ++ "-"%char :: [d1; d2; d3; d4; d5; d6]
          ++ "-"%char :: [a] ++ [s] ++ chars ".fits"))
  = CalibIdentity.fromDict
      [("obsDate", VStr (str [o1; o2; o3; o4; o5; o6; o7; o8; o9; o10]));
       ("visit0", VStr (str [d1; d2; d3; d4; d5; d6]));
       ("arm", VStr (str [a])); ("spectrograph", VStr (str [s]))].
Proof.
  intros HO HD.
  assert (HO' : Forall (fun c => cls_match CNonSpace c = true
                                 /\ negb (Ascii.eqb c "/") = true)
                       [o1; o2; o3; o4; o5; o6; o7; o8; o9; o10; a]).
  { eapply Forall_impl; [| exact HO]. intros c H. now apply andb_prop in H. }
  assert (HD' : Forall (fun c => cls_match CDigit c = true
                                 /\ negb (Ascii.eqb c "/") = true)
                       [d1; d2; d3; d4; d5; d6; s]).
  { eapply Forall_impl; [| exact HD]. intros c H. split; [exact H |].
    now apply digit_not_slash. }
  clear HO HD.
  repeat match goal with
         | H : Forall _ (_ :: _) |- _ => inversion H; clear H; subst
         | H : _ /\ _ |- _ => destruct H
         end.
  unfold PfsFiberProfiles.parseFilename, basename.
  rewrite chars_str, basename_aux_no_slash.
  2: { cbn.
       repeat match goal with
              | H : negb (Ascii.eqb _ _) = true |- _ => rewrite H; clear H
              end.
       reflexivity. }
  cbn [rev app]. unfold re_search.
  change (re_compile PfsFiberProfiles.filenameRegex) with (Ok fiberProfiles_prog).
  cbn [bind]. rewrite chars_str. unfold fiberProfiles_prog.
  cbn -[cls_match CalibIdentity.fromDict].
  rewrite !cls_lit.
  repeat match goal with
         | H : cls_match _ _ = true |- _ => rewrite H; clear H
         end.
  cbn -[CalibIdentity.fromDict]. reflexivity.
Qed.

Lemma list_of_length_1 {A : Type} (l : list A) :
  List.length l = 1%nat -> exists a, l = [a].
Proof. destruct l as [|a [|b l]]; try discriminate. eauto. Qed.

Lemma list_of_length_6 {A : Type} (l : list A) :
  List.length l = 6%nat -> exists a b c d e f, l = [a; b; c; d; e; f].
Proof.
  destruct l as [|a [|b [|c [|d [|e [|f [|g l]]]]]]]; try discriminate.
  intros _. now exists a, b, c, d, e, f.
Qed.

Lemma list_of_length_10 {A : Type} (l : list A) :
  List.length l = 10%nat ->
  exists a b c d e f g h i j, l = [a; b; c; d; e; f; g; h; i; j].
Proof.
  destruct l as [|a [|b [|c [|d [|e [|f [|g [|h [|i [|j [|k l]]]]]]]]]]];
    try discriminate.
  intros _. now exists a, b, c, d, e, f, g, h, i, j.
Qed.

(** X15. The format and the pattern of PfsFiberProfiles agree: for an
    identity that fits the fields of the file name, the name the format
    renders from [toDict] parses back to the identity. *)
Theorem canonical_name_parses :
  forall identity : CalibIdentity.t,
    fits_filename identity = true ->
    (name <- py_format PfsFiberProfiles.filenameFormat (CalibIdentity.toDict identity) ;;
     PfsFiberProfiles.parseFilename name)
    = Ok identity.
Proof.
  intros [obsDate spectrograph arm visit0]. unfold fits_filename.
  cbn [CalibIdentity.obsDate CalibIdentity.spectrograph CalibIdentity.arm
       CalibIdentity.visit0].
  intro H. repeat (apply andb_prop in H; destruct H as [H ?]).
  repeat match goal with
         | H : (_ =? _)%nat = true |- _ => apply Nat.eqb_eq in H
         | H : (_ <=? _) = true |- _ => apply Z.leb_le in H
         | H : (_ <? _) = true |- _ => apply Z.ltb_lt in H
         end.
  rewrite format_canonical. cbn [bind].
  destruct (format_int_field true 6 visit0) as (LV & DV & NV);
    [lia | cbn; lia | now left |].
  destruct (format_int_field false 1 spectrograph) as (LS & DS & NS);
    [lia | cbn; lia | now right |].
  destruct (list_of_length_10 _ H) as (o1 & o2 & o3 & o4 & o5 & o6 & o7 & o8 & o9 & o10 & EO).
  destruct (list_of_length_6 _ LV) as (d1 & d2 & d3 & d4 & d5 & d6 & EV).
  match goal with H : List.length (chars arm) = 1%nat |- _ =>
    destruct (list_of_length_1 _ H) as (a & EA) end.
  destruct (list_of_length_1 _ LS) as (s & ES).
  rewrite EV in DV, NV. rewrite ES in DS, NS. rewrite EV, ES.
  match goal with H : forallb name_char (chars obsDate) = true |- _ =>
    rewrite EO in H; rename H into FO end.
  match goal with H : forallb name_char (chars arm) = true |- _ =>
    rewrite EA in H; rename H into FA end.
  rewrite EO, EA. cbn [List.length Nat.sub repeat app].
  rewrite forallb_forall in FO, FA, DV, DS.
  etransitivity; [apply parse_canonical |].
  - repeat constructor; solve [apply FO; cbn; tauto | apply FA; cbn; tauto].
  - repeat constructor; solve [apply DV; cbn; tauto | apply DS; cbn; tauto].
  - unfold CalibIdentity.fromDict. cbn [dict_get String.eqb Ascii.eqb Bool.eqb bind].
    cbn [CalibIdentity.as_str bind]. unfold CalibIdentity.__init__, py_int, str.
    cbn [string_of_list_ascii].
    rewrite !int_of_str_digit
      by solve [apply DV; cbn; tauto | apply DS; cbn; tauto].
    change (chars ?x) with (list_ascii_of_string x).
    cbn [list_ascii_of_string]. rewrite NV, NS. cbn [bind].
    f_equal. f_equal.
    + rewrite <- (str_chars obsDate), EO. reflexivity.
    + rewrite <- (str_chars arm), EA. reflexivity.
Qed.

Lemma canonical_name_parses_witness :
  (name <- py_format PfsFiberProfiles.filenameFormat (CalibIdentity.toDict calib0) ;;
   PfsFiberProfiles.parseFilename name)
  = Ok calib0.
Proof.
  apply canonical_name_parses. vm_compute. reflexivity.
Defined.

(** ** What parseFilename returns *)

Lemma basename_aux_clean (l acc : list ascii) :
  forallb (fun c => negb (Ascii.eqb c "/")) acc = true ->
  forallb (fun c => negb (Ascii.eqb c "/")) (basename_aux l acc) = true.
Proof.
  revert acc. induction l as [|c l IH]; intros acc H; cbn.
  - rewrite forallb_forall in *. intros x Hx. apply H. now apply in_rev.
  - destruct (Ascii.eqb c "/") eqn:E; apply IH; [reflexivity |].
    cbn. now rewrite E, H.
Qed.

Lemma basename_no_slash (path : string) : no_slash (basename path) = true.
Proof.
  unfold no_slash, basename. rewrite chars_str. now apply basename_aux_clean.
Qed.

Lemma of_lu_bound (lu : Decimal.uint) :
  (DecimalPos.Unsigned.of_lu lu < 10 ^ N.of_nat (Decimal.nb_digits lu))%N.
Proof.
  induction lu; cbn [DecimalPos.Unsigned.of_lu Decimal.nb_digits];
    [reflexivity | rewrite Nat2N.inj_succ, N.pow_succ_r'; lia ..].
Qed.

Lemma uint_of_string_nb_digits (s : string) (u : Decimal.uint) :
  DecimalString.NilEmpty.uint_of_string s = Some u ->
  Decimal.nb_digits u = String.length s.
Proof.
  revert u. induction s as [|c s IH]; intros u H; cbn in H.
  - injection H as <-. reflexivity.
  - destruct (DecimalString.NilEmpty.uint_of_string s) as [d|];
      [| destruct c as [[] [] [] [] [] [] [] []]; discriminate H].
    specialize (IH d eq_refl).
    destruct c as [[] [] [] [] [] [] [] []]; try discriminate H;
      injection H as <-; cbn; now rewrite IH.
Qed.

(** [int] of a string of [n] digits is below [10^n]. *)
Lemma nat_of_digits_bound (l : list ascii) (v : Z) :
  nat_of_digits l = Ok v -> 0 <= v < 10 ^ Z.of_nat (List.length l).
Proof.
  unfold nat_of_digits. destruct l as [|c l]; [discriminate |].
  destruct (DecimalString.NilEmpty.uint_of_string (str (c :: l))) as [u|] eqn:U;
    [| discriminate].
  intro H. injection H as <-.
  apply uint_of_string_nb_digits in U.
  assert (L : String.length (str (c :: l)) = List.length (c :: l)).
  { generalize (c :: l). intro l'. unfold str.
    induction l' as [|x l' IH]; cbn; congruence. }
  rewrite L in U.
  pose proof (of_lu_bound (Decimal.rev u)) as B.
  rewrite DecimalFacts.nb_digits_rev, U in B.
  unfold N.of_uint. rewrite DecimalPos.Unsigned.of_uint_alt.
  split; [lia |].
  apply N2Z.inj_lt in B. rewrite N2Z.inj_pow, nat_N_Z in B. exact B.
Qed.

(** A search that finds a match has run the program with success at some
    position of the string. *)
Lemma scan_inv (prog : list instr) :
  forall (s pre : list ascii) (m : Match),
    re_scan prog (pre ++ s) s (List.length pre) = Some m ->
    exists pre' s' e caps,
      pre ++ s = pre' ++ s'
      /\ re_run prog s' (List.length pre') 0 [] [] = Some (e, caps)
      /\ m = mkMatch (pre' ++ s') (List.length pre') e caps.
Proof.
  induction s as [|c s IH]; intros pre m H; cbn [re_scan] in H.
  - destruct (re_run prog [] (List.length pre) 0 [] []) as [[e caps]|] eqn:R;
      [| discriminate].
    injection H as <-. exists pre, [], e, caps. auto.
  - destruct (re_run prog (c :: s) (List.length pre) 0 [] []) as [[e caps]|] eqn:R.
    + injection H as <-. exists pre, (c :: s), e, caps. auto.
    + specialize (IH (pre ++ [c]) m).
      rewrite <- app_assoc, length_app, Nat.add_1_r in IH. cbn [app] in IH.
      destruct (IH H) as (pre' & s' & e & caps & E & R' & ->).
      exists pre', s', e, caps. auto.
Qed.

(** The program of the pattern of PfsFiberProfiles, run with success: the
    input starts with the literal text and the four fields, and the groups
    are the fields. *)
Lemma run_inv (s : list ascii) (pos e : nat) (caps : list capture) :
  re_run fiberProfiles_prog s pos 0 [] [] = Some (e, caps) ->
  exists o1 o2 o3 o4 o5 o6 o7 o8 o9 o10 d1 d2 d3 d4 d5 d6 a sp dot rest,
    s = chars "pfsFiberProfiles-" ++ [o1; o2; o3; o4; o5; o6; o7; o8; o9; o10]
        ++ "-"%char :: [d1; d2; d3; d4; d5; d6]
        ++ "-"%char :: a :: sp :: dot :: chars "fits" ++ rest
    /\ caps = [(0, Some "obsDate", 17 + pos, 27 + pos);
               (1, Some "visit0", 28 + pos, 34 + pos);
               (2, Some "arm", 35 + pos, 36 + pos);
               (3, Some "spectrograph", 36 + pos, 37 + pos)]%nat
    /\ Forall (fun c => cls_match CNonSpace c = true)
              [o1; o2; o3; o4; o5; o6; o7; o8; o9; o10; a]
    /\ Forall (fun c => cls_match CDigit c = true) [d1; d2; d3; d4; d5; d6; sp].
Proof.
  unfold fiberProfiles_prog. intro H.
  repeat (cbn -[cls_match] in H;
          match type of H with
          | match ?l with [] => _ | _ :: _ => _ end = _ =>
              let c := fresh "c" in destruct l as [|c l]; [discriminate H |]
          | (if ?b then _ else _) = _ =>
              let E := fresh "E" in destruct b eqn:E; [| discriminate H]
          end).
  repeat match goal with
         | E : cls_match (CLit _) _ = true |- _ => apply Ascii.eqb_eq in E; subst
         end.
  injection H as <- <-.
  do 20 eexists. split; [reflexivity |]. split; [reflexivity |].
  split; repeat constructor; assumption.
Qed.

Lemma cap_text_app (pre s : list ascii) (p e : nat) (caps : list capture)
      (i : nat) (name : option string) (a b : nat) :
  cap_text (mkMatch (pre ++ s) p e caps)
           (i, name, (a + List.length pre)%nat, (b + List.length pre)%nat)
  = str (firstn (b - a) (skipn a s)).
Proof.
  unfold cap_text. cbn [m_string].
  rewrite skipn_app, skipn_all2 by lia. cbn [app].
  do 2 f_equal; [lia | f_equal; lia].
Qed.

(** X16. An identity [parseFilename] returns fits the fields of the file
    name: the date has ten characters and the arm one, none of them white
    space or a slash, the visit is between 0 and 999999 and the spectrograph
    between 0 and 9. *)
Theorem parsed_identity_fits :
  forall (path : string) (identity : CalibIdentity.t),
    PfsFiberProfiles.parseFilename path = Ok identity ->
    fits_filename identity = true.
Proof.
  intros path identity. unfold PfsFiberProfiles.parseFilename, re_search.
  change (re_compile PfsFiberProfiles.filenameRegex) with (Ok fiberProfiles_prog).
  cbn [bind].
  destruct (re_scan _ _ _ _) as [m|] eqn:SC; [| discriminate].
  apply (scan_inv _ _ []) in SC.
  destruct SC as (pre & s & e & caps & EW & R & ->). cbn [app] in EW.
  pose proof (basename_no_slash path) as NS. unfold no_slash in NS. rewrite EW in NS.
  apply run_inv in R.
  destruct R as (o1 & o2 & o3 & o4 & o5 & o6 & o7 & o8 & o9 & o10 & d1 & d2 & d3 & d4
                 & d5 & d6 & a & sp & dot & rest & -> & -> & HO & HD).
  unfold groupdict. cbn [m_captures flat_map snd fst app].
  rewrite !cap_text_app.
  cbn [Nat.sub chars list_ascii_of_string app skipn firstn].
  rewrite forallb_app in NS. apply andb_prop in NS. destruct NS as [_ NS].
  cbn [chars list_ascii_of_string app forallb] in NS.
  repeat match goal with
         | H : Forall _ (_ :: _) |- _ => inversion H; clear H; subst
         | H : Forall _ [] |- _ => clear H
         end.
  unfold CalibIdentity.fromDict. cbn [dict_get String.eqb Ascii.eqb Bool.eqb bind].
  cbn [CalibIdentity.as_str bind]. unfold CalibIdentity.__init__, py_int, str.
  cbn [string_of_list_ascii].
  rewrite !int_of_str_digit by assumption.
  change (chars ?x) with (list_ascii_of_string x). cbn [list_ascii_of_string].
  destruct (nat_of_digits [sp]) as [spectrograph|] eqn:NSp; [| discriminate].
  destruct (nat_of_digits [d1; d2; d3; d4; d5; d6]) as [visit0|] eqn:NV; [| discriminate].
  cbn [bind]. intro H. injection H as <-.
  apply nat_of_digits_bound in NSp, NV. cbn in NSp, NV.
  unfold fits_filename.
  cbn [CalibIdentity.obsDate CalibIdentity.spectrograph CalibIdentity.arm
       CalibIdentity.visit0].
  change (chars ?x) with (list_ascii_of_string x).
  cbn [list_ascii_of_string List.length Nat.eqb forallb].
  unfold name_char.
  repeat match goal with
         | H : cls_match CNonSpace ?c = true |- _ =>
             unfold cls_match in H; rewrite H; clear H
         end.
  repeat (apply andb_prop in NS; destruct NS as [? NS]).
  repeat match goal with
         | H : negb (Ascii.eqb _ "/") = true |- _ => rewrite ?H; clear H
         end.
  cbn [andb].
  destruct (Z.leb_spec 0 visit0); [| lia].
  destruct (Z.ltb_spec visit0 (10 ^ 6)); [| lia].
  destruct (Z.leb_spec 0 spectrograph); [| lia].
  destruct (Z.ltb_spec spectrograph 10); [| lia].
  reflexivity.
Qed.

Lemma parsed_identity_fits_witness : fits_filename calib0 = true.
Proof.
  apply (parsed_identity_fits "/data/XXpfsFiberProfiles-2024-01-02-000042-b1.fits.gz").
  vm_compute. reflexivity.
Defined.

(** ** Rendering a parsed name *)

Lemma string_of_uint_zeros (k : nat) (u : Decimal.uint) :
  chars (DecimalString.NilEmpty.string_of_uint (Nat.iter k Decimal.D0 u))
  = repeat "0"%char k ++ chars (DecimalString.NilEmpty.string_of_uint u).
Proof.
  unfold chars. induction k as [|k IH]; [reflexivity |].
  change (Nat.iter (S k) Decimal.D0 u) with (Decimal.D0 (Nat.iter k Decimal.D0 u)).
  cbn [DecimalString.NilEmpty.string_of_uint list_ascii_of_string repeat app].
  now rewrite IH.
Qed.

Lemma unorm_nonnil (u : Decimal.uint) : Decimal.unorm u <> Decimal.Nil.
Proof. unfold Decimal.unorm. destruct (Decimal.nzhead u); discriminate. Qed.

Lemma str_length (l : list ascii) : String.length (str l) = List.length l.
Proof. unfold str. induction l as [|c l IH]; cbn; congruence. Qed.

(** The digits that [int] has read are the digits the field renders, when
    they fill the field. *)
Lemma format_int_of_digits (zero : bool) (w : nat) (l : list ascii) (v : Z) :
  nat_of_digits l = Ok v -> List.length l = w -> zero = true \/ w = 1%nat ->
  format_int dec_digits zero w v = l.
Proof.
  unfold nat_of_digits. destruct l as [|c l]; [discriminate |].
  destruct (DecimalString.NilEmpty.uint_of_string (str (c :: l))) as [u|] eqn:U;
    [| discriminate].
  intros H L HZ. injection H as <-.
  pose proof (uint_of_string_nb_digits _ _ U) as NB. rewrite str_length, L in NB.
  apply DecimalString.NilEmpty.sus in U.
  assert (NN : u <> Decimal.Nil) by (intros ->; cbn in NB; cbn in L; lia).
  unfold format_int.
  destruct (Z.ltb_spec (Z.of_N (N.of_uint u)) 0) as [N | _]; [lia |].
  rewrite Zabs2N.id. unfold dec_digits.
  rewrite DecimalN.Unsigned.to_of.
  assert (S : DecimalString.NilZero.string_of_uint (Decimal.unorm u)
              = DecimalString.NilEmpty.string_of_uint (Decimal.unorm u)).
  { unfold DecimalString.NilZero.string_of_uint.
    pose proof (unorm_nonnil u). destruct (Decimal.unorm u); congruence. }
  rewrite S, string_of_uint_length. cbn [List.length app Nat.sub].
  pose proof (DecimalFacts.nb_digits_unorm u NN) as B.
  assert (B1 : (1 <= Decimal.nb_digits (Decimal.unorm u))%nat).
  { pose proof (unorm_nonnil u). destruct (Decimal.unorm u); cbn; [congruence | lia ..]. }
  assert (E : repeat "0"%char (w - 0 - Decimal.nb_digits (Decimal.unorm u))
              ++ chars (DecimalString.NilEmpty.string_of_uint (Decimal.unorm u))
              = c :: l).
  { rewrite <- string_of_uint_zeros, Nat.sub_0_r, <- NB,
      (DecimalFacts.iter_D0_unorm u NN), U. apply chars_str. }
  destruct zero; [exact E |].
  destruct HZ as [HZ | ->]; [discriminate |].
  replace (1 - 0 - Decimal.nb_digits (Decimal.unorm u))%nat with 0%nat in * by lia.
  exact E.
Qed.

(** A string of digits is read by [int]. *)
Lemma nat_of_digits_defined (l : list ascii) :
  l <> [] -> forallb is_digit l = true -> exists v, nat_of_digits l = Ok v.
Proof.
  intros NE D. unfold nat_of_digits.
  assert (U : exists u, DecimalString.NilEmpty.uint_of_string (str l) = Some u).
  { clear NE. induction l as [|c l IH]; [cbn; eauto |].
    cbn in D. apply andb_prop in D. destruct D as [Dc D].
    destruct (IH D) as [u Hu]. unfold str in *. cbn. rewrite Hu.
    destruct c as [[] [] [] [] [] [] [] []];
      try (vm_compute in Dc; discriminate Dc); cbn; eauto. }
  destruct U as [u ->]. destruct l; [congruence | eauto].
Qed.

(** X17. Rendering what was parsed gives the name back: a name of the
    canonical shape (a date of ten name characters, a visit of six digits, an
    arm of one name character and a spectrograph of one digit) parses, and
    the format renders the parsed identity to that name. *)
Theorem canonical_name_rendered_back :
  forall (date visit : string) (arm spectrograph : ascii),
    List.length (chars date) = 10%nat -> forallb name_char (chars date) = true ->
    List.length (chars visit) = 6%nat -> forallb is_digit (chars visit) = true ->
    name_char arm = true -> is_digit spectrograph = true ->
    let name := canonical_name date visit arm spectrograph in
    (identity <- PfsFiberProfiles.parseFilename name ;;
     py_format PfsFiberProfiles.filenameFormat (CalibIdentity.toDict identity))
    = Ok name.
Proof.
  intros date visit arm sp LD FD LV FV FA FS name. subst name.
  destruct (list_of_length_10 _ LD)
    as (o1 & o2 & o3 & o4 & o5 & o6 & o7 & o8 & o9 & o10 & ED).
  destruct (list_of_length_6 _ LV) as (d1 & d2 & d3 & d4 & d5 & d6 & EV).
  rewrite ED in FD. rewrite EV in FV.
  assert (EN : canonical_name date visit arm sp
               = str (chars "pfsFiberProfiles-" ++ [o1; o2; o3; o4; o5; o6; o7; o8; o9; o10]
                      ++ "-"%char :: [d1; d2; d3; d4; d5; d6]
                      ++ "-"%char :: [arm] ++ [sp] ++ chars ".fits")).
  { rewrite <- (str_chars (canonical_name date visit arm sp)). f_equal.
    unfold canonical_name. rewrite !chars_app, ED, EV. reflexivity. }
  rewrite EN at 1.
  destruct (nat_of_digits_defined [d1; d2; d3; d4; d5; d6]) as [v NV];
    [discriminate | exact FV |].
  destruct (nat_of_digits_defined [sp]) as [s NS];
    [discriminate | cbn; now rewrite FS |].
  rewrite forallb_forall in FD, FV.
  rewrite parse_canonical.
  2: { repeat constructor; solve [apply FD; cbn; tauto | exact FA]. }
  2: { repeat constructor; solve [apply FV; cbn; tauto | exact FS]. }
  unfold CalibIdentity.fromDict. cbn [dict_get String.eqb Ascii.eqb Bool.eqb bind].
  cbn [CalibIdentity.as_str bind]. unfold CalibIdentity.__init__, py_int.
  unfold str at 1 2 3 4. cbn [string_of_list_ascii].
  rewrite !int_of_str_digit by solve [apply FV; cbn; tauto | exact FS].
  change (chars ?x) with (list_ascii_of_string x) at 1 2.
  cbn [list_ascii_of_string]. rewrite NV, NS. cbn [bind].
  rewrite format_canonical.
  rewrite (format_int_of_digits true 6 _ v NV eq_refl (or_introl eq_refl)).
  rewrite (format_int_of_digits false 1 _ s NS eq_refl (or_intror eq_refl)).
  rewrite EN. reflexivity.
Qed.

Lemma canonical_name_rendered_back_witness :
  (identity <- PfsFiberProfiles.parseFilename "pfsFiberProfiles-2024-01-02-000042-b1.fits" ;;
   py_format PfsFiberProfiles.filenameFormat (CalibIdentity.toDict identity))
  = Ok "pfsFiberProfiles-2024-01-02-000042-b1.fits".
Proof.
  apply (canonical_name_rendered_back "2024-01-02" "000042" "b" "1");
    vm_compute; reflexivity.
Defined.
